(** * Incremental SharePoint-to-master sync: a shallow embedding of
      [sharepoint_etl.py] and the properties of its change detector,
      extraction pipeline, cleaning stage and ledger writer. *)

From Stdlib Require Import String Ascii List Arith Lia Bool.
From stdpp Require Import gmap strings list fin_maps.
Import ListNotations.

Local Open Scope string_scope.
Local Open Scope list_scope.

(** ** Python strings

    A string is a sequence of characters with code points below 256 (the
    Latin-1 range): the character [c] stands for the code point
    [nat_of_ascii c]. Text with other characters is outside the model.
    [lower] and [strip] are Python's [str.lower] and [str.strip] on this
    range. *)

Module PyStr.

(** The characters [str.lower] changes: A..Z, and the capital letters
    192..222 of Latin-1 except the multiplication sign 215. *)
Definition is_upper (c : ascii) : bool :=
  let n := nat_of_ascii c in
  ((65 <=? n)%nat && (n <=? 90)%nat)
  || ((192 <=? n)%nat && (n <=? 222)%nat && negb (n =? 215)%nat).

Definition lower_ascii (c : ascii) : ascii :=
  if is_upper c then ascii_of_nat (nat_of_ascii c + 32) else c.

Fixpoint lower (s : string) : string :=
  match s with
  | EmptyString => EmptyString
  | String c s' => String (lower_ascii c) (lower s')
  end.

(** [s.startswith(p)] *)
Fixpoint startswith (p s : string) : bool :=
  match p, s with
  | EmptyString, _ => true
  | String _ _, EmptyString => false
  | String a p', String b s' => Ascii.eqb a b && startswith p' s'
  end.

(** [needle in hay] *)
Fixpoint str_in (needle hay : string) : bool :=
  startswith needle hay ||
  match hay with
  | EmptyString => false
  | String _ hay' => str_in needle hay'
  end.

(** [str.isspace] on one character: tab, LF, VT, FF, CR, the four
    separators 28..31, the space, NEL (133) and the no-break space (160). *)
Definition is_space (c : ascii) : bool :=
  let n := nat_of_ascii c in
  ((9 <=? n)%nat && (n <=? 13)%nat) || ((28 <=? n)%nat && (n <=? 32)%nat)
  || (n =? 133)%nat || (n =? 160)%nat.

Fixpoint lstrip_list (l : list ascii) : list ascii :=
  match l with
  | [] => []
  | c :: l' => if is_space c then lstrip_list l' else l
  end.

Definition lstrip (s : string) : string :=
  string_of_list_ascii (lstrip_list (list_ascii_of_string s)).

Definition rstrip (s : string) : string :=
  string_of_list_ascii
    (rev (lstrip_list (rev (list_ascii_of_string s)))).

Definition strip (s : string) : string := rstrip (lstrip s).

(** Truthiness of a string: [if s:] *)
Definition truthy (s : string) : bool :=
  match s with EmptyString => false | _ => true end.

(** The substring relation that [str_in] decides. *)
Definition substring_of (needle hay : string) : Prop :=
  exists pre post, hay = (pre ++ needle ++ post)%string.

(** [contains_ci pat s]: [pat] occurs in [s] in some letter casing. *)
Definition contains_ci (pat s : string) : bool := str_in (lower pat) (lower s).

End PyStr.

(** ** pandas data frames

    A cell is a string or a number (an integer or a float, known by the
    text [str()] gives of it); a missing cell (NaN) is an absent key of
    the row. Cells of other kinds (dates, booleans) are outside the
    model. Every column carries its dtype, because the trimming step
    selects columns by dtype. *)

Inductive value :=
  | VStr (s : string)
  | VNum (repr : string).

Inductive dtype := DObject | DNumeric.

Global Instance value_eq_dec : EqDecision value.
Proof. solve_decision. Defined.

Global Instance dtype_eq_dec : EqDecision dtype.
Proof. solve_decision. Defined.

Record Row := mkRow {
  label : nat;                      (* the index label of the row *)
  cells : gmap string value
}.

Record DataFrame := mkDF {
  columns : list (string * dtype);
  rows : list Row
}.

Module pd.

(** [pd.DataFrame()] *)
Definition DataFrame_new : DataFrame := mkDF [] [].

Definition len (df : DataFrame) : nat := length (rows df).

(** [df.empty]: some axis has length zero. *)
Definition empty (df : DataFrame) : bool :=
  (length (rows df) =? 0)%nat || (length (columns df) =? 0)%nat.

Definition column_names (df : DataFrame) : list string := map fst (columns df).

(** [col in df.columns] *)
Definition has_column (df : DataFrame) (col : string) : bool :=
  existsb (String.eqb col) (column_names df).

Definition notna (r : Row) (col : string) : bool :=
  match cells r !! col with Some _ => true | None => false end.

(** [df.dropna(how='all')]: keep the rows with a value in some column. *)
Definition dropna_all (df : DataFrame) : DataFrame :=
  mkDF (columns df)
       (List.filter (fun r => existsb (notna r) (column_names df)) (rows df)).

(** [df.dropna(subset=cols)]: keep the rows with a value in every one of
    [cols]. *)
Definition dropna_subset (cols : list string) (df : DataFrame) : DataFrame :=
  mkDF (columns df) (List.filter (fun r => forallb (notna r) cols) (rows df)).

(** [str()] of a cell, as [df.astype(str)] computes it. *)
Definition astype_str (o : option value) : string :=
  match o with
  | Some (VStr s) => s
  | Some (VNum repr) => repr
  | None => "nan"
  end.

(** [Series.str.contains(pat, case=False, na=False)] for a pattern that is
    an alternation of literal strings ['a|b|c']. *)
Definition str_contains_ci (alternatives : list string) (s : string) : bool :=
  existsb (fun p => PyStr.contains_ci p s) alternatives.

(** [df[mask]] with a boolean mask computed per row: a new frame. *)
Definition getitem_mask (mask : Row -> bool) (df : DataFrame) : DataFrame :=
  mkDF (columns df) (List.filter mask (rows df)).

Definition is_str (o : option value) : bool :=
  match o with Some (VStr _) => true | _ => false end.

(** [df[col].str]: the accessor raises [AttributeError] ("Can only use
    .str accessor with string values") when the column has values and
    none of them is a string; a column of strings, of strings and
    numbers, or without any value is accepted. *)
Definition str_accessor_raises (col : string) (df : DataFrame) : bool :=
  existsb (fun r => notna r col) (rows df)
  && negb (existsb (fun r => is_str (cells r !! col)) (rows df)).

(** One element of [Series.str.strip()] on a column the accessor
    accepts: strings are trimmed, anything else comes back as NaN. *)
Definition str_strip (v : value) : option value :=
  match v with
  | VStr s => Some (VStr (PyStr.strip s))
  | VNum _ => None
  end.

(** [df[col] = df[col].str.strip()] *)
Definition strip_column (col : string) (df : DataFrame) : DataFrame :=
  mkDF (columns df)
       (map (fun r => mkRow (label r)
                        (partial_alter (fun o => o ≫= str_strip) col (cells r)))
            (rows df)).

(** [df.select_dtypes(include='object').columns] *)
Definition object_columns (df : DataFrame) : list string :=
  map fst (List.filter (fun c => bool_decide (snd c = DObject)) (columns df)).

(** [df[col] = scalar] for a string scalar: an existing column keeps its
    place, a new one goes last; the column becomes an object column. *)
Definition set_column (col : string) (v : string) (df : DataFrame) : DataFrame :=
  mkDF (if has_column df col
        then map (fun c => if String.eqb (fst c) col then (col, DObject) else c)
                 (columns df)
        else columns df ++ [(col, DObject)])
       (map (fun r => mkRow (label r) (<[col := VStr v]> (cells r))) (rows df)).

Definition lookup_dtype (cols : list (string * dtype)) (c : string) : option dtype :=
  snd <$> List.find (fun p => String.eqb (fst p) c) cols.

(** Column union of [pd.concat]: the columns of the first frame in their
    order (a column of both frames keeps its dtype when the two agree and
    becomes an object column otherwise), then the new columns of the
    second. *)
Definition concat_columns (a b : list (string * dtype)) : list (string * dtype) :=
  map (fun c => match lookup_dtype b (fst c) with
                | Some d => if bool_decide (d = snd c) then c else (fst c, DObject)
                | None => c
                end) a
  ++ List.filter (fun c => negb (existsb (String.eqb (fst c)) (map fst a))) b.

Fixpoint relabel_from (n : nat) (rs : list Row) : list Row :=
  match rs with
  | [] => []
  | r :: rs' => mkRow n (cells r) :: relabel_from (S n) rs'
  end.

(** [pd.concat([a, b], ignore_index=True)] *)
Definition concat (a b : DataFrame) : DataFrame :=
  mkDF (concat_columns (columns a) (columns b))
       (relabel_from 0 (rows a ++ rows b)).

End pd.

(** ** Diagnostics and remote calls

    What the program prints once the files are listed, and every call it
    then makes to the remote store, is recorded as an event, in order. *)

Inductive event :=
  (* process_excel_file *)
  | ProcessingSheet (actual_sheet_name : string)
  | ErrorReadingSheet (actual_sheet_name : string)
  | WarningSheetNotFound (sheet_name : string)
  | ErrorProcessingExcelContent
  (* clean_and_filter_data *)
  | InitialRows (n : nat)
  | RowsAfterBlank (n : nat)
  | RowsAfterQC (n : nat)
  | RowsAfterPartial (key_columns_exist : list string) (n : nat)
  | WarningKeyColumnsNotFound (key_columns : list string)
  | FinalRows (n : nat)
  (* calls to the remote store and their failures *)
  | CallTimeLastModified (file_url : string)
  | ErrorGettingModifiedTime (file_url : string)
  | CallOpenBinary (file_url : string)
  | ErrorReadingFile (file_url : string)
  (* run_etl *)
  | NotConnected
  | FoundFiles (n : nat)
  | SkippingNotModified (file_url : string)
  | ProcessingModified (file_url : string)
  | ProcessingNew (file_url : string)
  | NoDataExtracted (file_url : string)
  | CouldNotReadContent (file_url : string)
  | CouldNotGetModifiedTime (file_url : string)
  | Appending (n : nat)
  | MasterUpdated (n : nat)
  | LedgerUpdated
  | ErrorWritingMaster
  | NoNewData
  | WarningLedgerNotDecoded
  (* the traceback of an exception that nothing catches *)
  | UncaughtAttributeError.

Global Instance event_eq_dec : EqDecision event.
Proof. solve_decision. Defined.

(** ** The tabular reader

    [pd.ExcelFile(file_content)] either raises or gives a workbook: its
    sheet names in order, and what [xls.parse(name, header=h)] returns for
    each sheet and each choice [h] of the row that holds the column
    labels ([None] when parsing raises). The downloaded bytes are
    represented by what [pd.ExcelFile] makes of them. *)

Record Workbook := mkWorkbook {
  sheet_names : list string;
  parse : string -> nat -> option DataFrame
}.

(** The [header] argument of [xls.parse] when the call does not give it:
    the first row of the sheet holds the column labels. *)
Definition default_header : nat := 0.

Definition BytesIO : Type := option Workbook.

Definition sheets_to_process : list string := ["Batch Sheet"; "Product Info"].

(** The inner [for available_sheet in available_sheets: ... break] loop. *)
Fixpoint find_sheet (sheet_name : string) (available_sheets : list string)
  : option string :=
  match available_sheets with
  | [] => None
  | available_sheet :: rest =>
      if PyStr.str_in (PyStr.lower sheet_name) (PyStr.lower available_sheet)
      then Some available_sheet
      else find_sheet sheet_name rest
  end.

(** One round of the [for sheet_name in sheets_to_process] loop. *)
Definition process_sheet (xls : Workbook) (acc : DataFrame * list event)
    (sheet_name : string) : DataFrame * list event :=
  let '(all_sheet_data, out) := acc in
  match find_sheet sheet_name (sheet_names xls) with
  | Some actual_sheet_name =>
      if PyStr.truthy actual_sheet_name then
        match parse xls actual_sheet_name default_header with
        | Some df =>
            (pd.concat all_sheet_data
               (pd.set_column "_SourceSheet" actual_sheet_name df),
             out ++ [ProcessingSheet actual_sheet_name])
        | None =>
            (all_sheet_data,
             out ++ [ProcessingSheet actual_sheet_name;
                     ErrorReadingSheet actual_sheet_name])
        end
      else (all_sheet_data, out ++ [WarningSheetNotFound sheet_name])
  | None => (all_sheet_data, out ++ [WarningSheetNotFound sheet_name])
  end.

Definition process_excel_file (file_content : BytesIO) : DataFrame * list event :=
  match file_content with
  | Some xls => fold_left (process_sheet xls) sheets_to_process (pd.DataFrame_new, [])
  | None => (pd.DataFrame_new, [ErrorProcessingExcelContent])
  end.

(** ** Cleaning and filtering *)

Definition qc_patterns : list string := ["CCV"; "MB"; "Blank"; "Check"].

Definition key_columns : list string := ["Sample ID"; "Result"].

(** The per-row mask of step 2: some column of the row, converted to
    text, contains one of the patterns. *)
Definition qc_mask (df : DataFrame) (r : Row) : bool :=
  existsb (fun col => pd.str_contains_ci qc_patterns (pd.astype_str (cells r !! col)))
          (pd.column_names df).

(** The trimming loop of step 4, column after column: the frame it ends
    with, and whether it ended on the [AttributeError] of a column the
    [.str] accessor refuses (the columns before that one are trimmed). *)
Fixpoint strip_loop (cols : list string) (df : DataFrame) : DataFrame * bool :=
  match cols with
  | [] => (df, false)
  | col :: rest =>
      if pd.str_accessor_raises col df then (df, true)
      else strip_loop rest (pd.strip_column col df)
  end.

(** What a call [clean_and_filter_data(df)] leaves behind: the frame the
    function holds when it ends (the frame it returns, unless it
    [raised]), the state of the caller's frame afterwards (step 1 works in
    place on it; from step 2 on the function works on a frame of its own),
    what it printed, and whether it ended on the [AttributeError] of
    step 4 instead of returning. *)
Record Cleaned := mkCleaned {
  returned : DataFrame;
  argument_after : DataFrame;
  printed : list event;
  raised : bool
}.

Definition stage1 (df : DataFrame) : DataFrame := pd.dropna_all df.

Definition stage2 (df : DataFrame) : DataFrame :=
  pd.getitem_mask (fun r => negb (qc_mask df r)) df.

Definition key_columns_exist (df : DataFrame) : list string :=
  List.filter (pd.has_column df) key_columns.

Definition stage3 (df : DataFrame) : DataFrame :=
  match key_columns_exist df with
  | [] => df
  | _ :: _ => pd.dropna_subset (key_columns_exist df) df
  end.

Definition stage4 (df : DataFrame) : DataFrame :=
  fst (strip_loop (pd.object_columns df) df).

Definition stage4_raises (df : DataFrame) : bool :=
  snd (strip_loop (pd.object_columns df) df).

Definition clean_and_filter_data (df : DataFrame) : Cleaned :=
  let initial_rows := pd.len df in
  let df_in_place := stage1 df in
  let df2 := stage2 df_in_place in
  let df3 := stage3 df2 in
  let df4 := stage4 df3 in
  mkCleaned df4 df_in_place
    ([InitialRows initial_rows;
      RowsAfterBlank (pd.len df_in_place);
      RowsAfterQC (pd.len df2)]
     ++ match key_columns_exist df2 with
        | [] => [WarningKeyColumnsNotFound key_columns]
        | _ :: _ => [RowsAfterPartial (key_columns_exist df2) (pd.len df3)]
        end
     ++ (if stage4_raises df3 then [] else [FinalRows (pd.len df4)]))
    (stage4_raises df3).

(** ** The processed-files ledger and its file

    The ledger is a dictionary from file URL to the ISO-8601 text of the
    modification time at which the file was processed. The text of the
    ledger file is kept as the sequence of JSON pieces that [json.dump]
    writes one after the other: the opening brace, one piece per
    key/value pair, the closing brace. [None] is a file that does not
    exist. *)

Inductive jtoken :=
  | JOpen
  | JPair (key val : string)
  | JClose.

Global Instance jtoken_eq_dec : EqDecision jtoken.
Proof. solve_decision. Defined.

Definition file_text : Type := list jtoken.

(** What [json.dump(processed_files, f, indent=4)] writes, piece by piece. *)
Definition json_iterencode (processed_files : gmap string string) : file_text :=
  JOpen :: map (fun kv => JPair (fst kv) (snd kv)) (map_to_list processed_files)
        ++ [JClose].

Fixpoint json_pairs (text : file_text) (acc : gmap string string)
  : option (gmap string string) :=
  match text with
  | [JClose] => Some acc
  | JPair k v :: rest => json_pairs rest (<[k := v]> acc)
  | _ => None
  end.

(** [json.load(f)]: [None] stands for [JSONDecodeError]. A repeated key
    keeps its last value. *)
Definition json_load (text : file_text) : option (gmap string string) :=
  match text with
  | JOpen :: rest => json_pairs rest ∅
  | _ => None
  end.

Definition load_processed_files_log (log_file : option file_text)
  : gmap string string * list event :=
  match log_file with
  | Some text =>
      match json_load text with
      | Some d => (d, [])
      | None => (∅, [WarningLedgerNotDecoded])
      end
  | None => (∅, [])
  end.

(** The file-system steps of [save_processed_files_log]: [open(log_file,
    'w')] creates or truncates the file, each piece of JSON is written
    after what is already there, and the file is closed. *)
Inductive fs_op :=
  | OpenW
  | WriteChunk (c : jtoken)
  | CloseFile.

Definition exec_op (f : option file_text) (op : fs_op) : option file_text :=
  match op with
  | OpenW => Some []
  | WriteChunk c => (fun text => text ++ [c]) <$> f
  | CloseFile => f
  end.

Definition save_ops (processed_files : gmap string string) : list fs_op :=
  OpenW :: map WriteChunk (json_iterencode processed_files) ++ [CloseFile].

Definition save_processed_files_log (log_file : option file_text)
    (processed_files : gmap string string) : option file_text :=
  fold_left exec_op (save_ops processed_files) log_file.

(** The same call cut short after its first [k] steps. *)
Definition save_interrupted (k : nat) (log_file : option file_text)
    (processed_files : gmap string string) : option file_text :=
  fold_left exec_op (firstn k (save_ops processed_files)) log_file.

(** ** The remote document store *)

(** A [datetime] is known by its [isoformat()] text. *)
Record datetime := mkDatetime { isoformat : string }.

(** A folder of the store: loading it fails, or gives its files (name and
    server-relative URL) and its sub-folders (name and content). *)
#[warnings="-register-all"]
Inductive Folder :=
  | Unlistable
  | Listing (files : list (string * string)) (folders : list (string * Folder)).

(** What the connected client answers: the tree under the configured
    path, and per file URL the result of the modification-time query and
    of the download ([None] when the call raises). *)
Record ClientContext := mkCtx {
  root_folder : Folder;
  time_last_modified : string -> option datetime;
  open_binary : string -> option BytesIO
}.

Definition endswith (suffix s : string) : bool :=
  PyStr.startswith
    (string_of_list_ascii (rev (list_ascii_of_string suffix)))
    (string_of_list_ascii (rev (list_ascii_of_string s))).

Definition is_excel_name (name : string) : bool :=
  endswith ".xlsx" (PyStr.lower name) || endswith ".xls" (PyStr.lower name).

Definition is_system_folder (name : string) : bool :=
  PyStr.startswith "_" name || String.eqb name "Forms".

Fixpoint list_excel_files_recursive (folder : Folder) : list string :=
  match folder with
  | Unlistable => []
  | Listing files folders =>
      map snd (List.filter (fun f => is_excel_name (fst f)) files)
      ++ flat_map (fun sub => if negb (is_system_folder (fst sub))
                              then list_excel_files_recursive (snd sub)
                              else [])
                  folders
  end.

Definition read_excel_from_sharepoint (ctx : ClientContext) (file_url : string)
  : option BytesIO * list event :=
  match open_binary ctx file_url with
  | Some file_content => (Some file_content, [CallOpenBinary file_url])
  | None => (None, [CallOpenBinary file_url; ErrorReadingFile file_url])
  end.

Definition get_sharepoint_file_modified_time (ctx : ClientContext)
    (file_url : string) : option datetime * list event :=
  match time_last_modified ctx file_url with
  | Some t => (Some t, [CallTimeLastModified file_url])
  | None => (None, [CallTimeLastModified file_url;
                    ErrorGettingModifiedTime file_url])
  end.

(** ** The run *)

(** The variables of the loop, what was printed so far, and whether an
    exception that nothing catches has ended the run. *)
Record LoopState := mkLoop {
  data_to_append : DataFrame;
  updated_processed_files_log : gmap string string;
  out : list event;
  died : bool
}.

Definition say (st : LoopState) (evs : list event) : LoopState :=
  mkLoop (data_to_append st) (updated_processed_files_log st) (out st ++ evs)
         (died st).

(** The part of the loop body under the comment "Process the file". The
    call of [clean_and_filter_data] is under no [try]: when it raises, the
    lines after it are not reached and the run is over. *)
Definition process_selected (ctx : ClientContext) (st : LoopState)
    (file_url last_modified_str : string) : LoopState :=
  let '(file_content, evs) := read_excel_from_sharepoint ctx file_url in
  let st := say st evs in
  match file_content with
  | Some file_content =>
      let '(file_data, evs) := process_excel_file file_content in
      let st := say st evs in
      if negb (pd.empty file_data) then
        let cleaned := clean_and_filter_data file_data in
        if raised cleaned then
          mkLoop (data_to_append st) (updated_processed_files_log st)
                 (out st ++ printed cleaned) true
        else
          mkLoop (pd.concat (data_to_append st) (returned cleaned))
                 (<[file_url := last_modified_str]> (updated_processed_files_log st))
                 (out st ++ printed cleaned) (died st)
      else say st [NoDataExtracted file_url]
  | None => say st [CouldNotReadContent file_url]
  end.

(** One round of [for file_url in all_excel_files]; no round takes place
    once the run is over. *)
Definition visit_file (ctx : ClientContext)
    (processed_files_log : gmap string string)
    (st : LoopState) (file_url : string) : LoopState :=
  if died st then st else
  let '(last_modified_time, evs) := get_sharepoint_file_modified_time ctx file_url in
  let st := say st evs in
  match last_modified_time with
  | Some last_modified_time =>
      let last_modified_str := isoformat last_modified_time in
      match processed_files_log !! file_url with
      | Some recorded =>
          if String.eqb recorded last_modified_str
          then say st [SkippingNotModified file_url]
          else process_selected ctx (say st [ProcessingModified file_url])
                                file_url last_modified_str
      | None =>
          process_selected ctx (say st [ProcessingNew file_url])
                           file_url last_modified_str
      end
  | None => say st [CouldNotGetModifiedTime file_url]
  end.

(** The two local files. The ledger file holds a JSON object of strings,
    possibly cut short or otherwise undecodable; JSON documents of another
    shape, from which [json.load] returns something that is not a
    dictionary, are outside the model. The master workbook is known by
    the frame that was written to it. *)
Record Disk := mkDisk {
  ledger_file : option file_text;
  master_file : option DataFrame
}.

(** The local reader and writer in one run: the frame [pd.read_excel]
    returns from a master workbook holding a given frame ([None] when it
    raises; what it returns need not be what was written: the index is
    renumbered, dtypes are inferred anew, texts such as "NA" come back
    missing), whether [to_excel] raises, and what a [to_excel] that
    raises leaves of the master file. *)
Record LocalIO := mkIO {
  read_excel : DataFrame -> option DataFrame;
  to_excel_raises : bool;
  failed_write_leaves : option DataFrame -> option DataFrame
}.

Inductive write_outcome :=
  | Written (consolidated_data : DataFrame)
  | ReadRaised
  | WriteRaised.

(** The body of the [try] up to and including [to_excel]. *)
Definition write_master (io : LocalIO) (master : option DataFrame)
    (data : DataFrame) : write_outcome :=
  match match master with
        | Some written =>
            (fun existing_data => pd.concat existing_data data) <$> read_excel io written
        | None => Some data
        end with
  | Some consolidated_data =>
      if to_excel_raises io then WriteRaised else Written consolidated_data
  | None => ReadRaised
  end.

(** Everything after the loop. The save of the ledger is taken to run to
    its end; what a save that is cut short leaves of the file is
    [save_interrupted]. *)
Definition commit (io : LocalIO) (disk : Disk) (st : LoopState) : Disk * list event :=
  if negb (pd.empty (data_to_append st)) then
    match write_master io (master_file disk) (data_to_append st) with
    | Written consolidated_data =>
        (mkDisk (save_processed_files_log (ledger_file disk)
                   (updated_processed_files_log st))
                (Some consolidated_data),
         out st ++ [Appending (pd.len (data_to_append st));
                    MasterUpdated (pd.len (data_to_append st));
                    LedgerUpdated])
    | ReadRaised =>
        (disk, out st ++ [Appending (pd.len (data_to_append st));
                          ErrorWritingMaster])
    | WriteRaised =>
        (mkDisk (ledger_file disk) (failed_write_leaves io (master_file disk)),
         out st ++ [Appending (pd.len (data_to_append st));
                    ErrorWritingMaster])
    end
  else
    (mkDisk (save_processed_files_log (ledger_file disk)
               (updated_processed_files_log st))
            (master_file disk),
     out st ++ [NoNewData; LedgerUpdated]).

(** The [for file_url in all_excel_files] loop. *)
Definition visit_all (ctx : ClientContext)
    (processed_files_log : gmap string string)
    (all_excel_files : list string) (st : LoopState) : LoopState :=
  fold_left (visit_file ctx processed_files_log) all_excel_files st.

(** The state of the run when the loop is over. *)
Definition run_loop (ctx : ClientContext) (disk : Disk) : LoopState :=
  let all_excel_files := list_excel_files_recursive (root_folder ctx) in
  let '(processed_files_log, evs) := load_processed_files_log (ledger_file disk) in
  visit_all ctx processed_files_log all_excel_files
    (mkLoop pd.DataFrame_new processed_files_log
            ([FoundFiles (length all_excel_files)] ++ evs) false).

(** [run_etl()]: [connect_to_sharepoint()] gave [None] or a context. A
    run that an uncaught exception ended in the loop never reaches the
    lines after the loop: both local files are as they were. *)
Definition run_etl (connection : option ClientContext) (io : LocalIO)
    (disk : Disk) : Disk * list event :=
  match connection with
  | None => (disk, [NotConnected])
  | Some ctx =>
      let st := run_loop ctx disk in
      if died st then (disk, out st ++ [UncaughtAttributeError])
      else commit io disk st
  end.

(** ** Reference notions used in the statements *)

(** The change states of the specification, and the classification it
    words: not in the ledger, New; same text, Unchanged; else Modified. *)
Inductive FileChangeState := New | Modified | Unchanged.

Global Instance FileChangeState_eq_dec : EqDecision FileChangeState.
Proof. solve_decision. Defined.

Definition classify (ledger : gmap string string) (path : string)
    (current_timestamp_iso : string) : FileChangeState :=
  match ledger !! path with
  | None => New
  | Some recorded =>
      if bool_decide (recorded = current_timestamp_iso) then Unchanged else Modified
  end.

(** A frame without fully blank rows. *)
Definition no_blank_row (df : DataFrame) : bool :=
  forallb (fun r => existsb (pd.notna r) (pd.column_names df)) (rows df).

(** Sample frames. *)
Definition row_of (n : nat) (kvs : list (string * value)) : Row :=
  mkRow n (list_to_map kvs).

Definition df_one_blank_row : DataFrame :=
  mkDF [("Result", DNumeric)] [row_of 0 []].

Definition df_lab_results : DataFrame :=
  mkDF [("Sample ID", DObject); ("Result", DNumeric); ("_SourceSheet", DObject)]
       [row_of 0 [("Sample ID", VStr " S1 "); ("Result", VNum "5");
                  ("_SourceSheet", VStr "Batch Sheet")];
        row_of 1 [("Sample ID", VStr "Method BLANK 2"); ("Result", VNum "0");
                  ("_SourceSheet", VStr "Batch Sheet")];
        row_of 2 [("_SourceSheet", VStr "Batch Sheet")]].

(** The cells that extraction is expected to take from one target table
    name: the rows of the first sheet whose name contains the target,
    parsed with the first row of the sheet as column labels, each tagged
    with that sheet's name; nothing when no sheet matches or the sheet
    cannot be parsed. *)
Definition tagged_cells (xls : Workbook) (sheet_name : string)
  : list (gmap string value) :=
  match find_sheet sheet_name (sheet_names xls) with
  | Some actual =>
      match parse xls actual default_header with
      | Some df => map (fun r => <["_SourceSheet" := VStr actual]> (cells r)) (rows df)
      | None => []
      end
  | None => []
  end.

(** What is printed for one target table name. *)
Definition sheet_events (xls : Workbook) (sheet_name : string) : list event :=
  match find_sheet sheet_name (sheet_names xls) with
  | Some actual =>
      match parse xls actual default_header with
      | Some _ => [ProcessingSheet actual]
      | None => [ProcessingSheet actual; ErrorReadingSheet actual]
      end
  | None => [WarningSheetNotFound sheet_name]
  end.

(** The first sheet name that contains the target, whatever the letter
    case, as a statement about the list of names. *)
Definition first_match (sheet_name : string) (available : list string)
    (found : option string) : Prop :=
  match found with
  | Some actual =>
      exists before after,
        available = before ++ actual :: after /\
        PyStr.contains_ci sheet_name actual = true /\
        Forall (fun n => PyStr.contains_ci sheet_name n = false) before
  | None => Forall (fun n => PyStr.contains_ci sheet_name n = false) available
  end.

(** Frames whose index is [0, 1, ..., n-1], as [ignore_index=True] leaves
    them. *)
Definition range_index (df : DataFrame) : Prop :=
  map label (rows df) = seq 0 (length (rows df)).

(** What one file contributes to a run that starts from [ledger]: when
    its modification time is known, it is New or Modified, its content can
    be downloaded and extraction returns a non-empty frame, the text of
    the modification time and the extracted frame; nothing otherwise. *)
Definition extracted (ctx : ClientContext) (ledger : gmap string string)
    (file_url : string) : option (string * DataFrame) :=
  t ← time_last_modified ctx file_url;
  match classify ledger file_url (isoformat t) with
  | Unchanged => None
  | New | Modified =>
      file_content ← open_binary ctx file_url;
      let file_data := fst (process_excel_file file_content) in
      if pd.empty file_data then None else Some (isoformat t, file_data)
  end.

(** The events of one round of the loop. *)
Definition visit_events (ctx : ClientContext) (ledger : gmap string string)
    (file_url : string) : list event :=
  out (visit_file ctx ledger (mkLoop pd.DataFrame_new ∅ [] false) file_url).

(** The ledger as a run finds it on disk. *)
Definition ledger_on (disk : Disk) : gmap string string :=
  fst (load_processed_files_log (ledger_file disk)).

Definition master_len (disk : Disk) : nat :=
  match master_file disk with
  | Some df => pd.len df
  | None => 0
  end.

(** A sample store with one workbook, [A.xlsx]. *)
Definition url_A : string := "/Documents/lab/A.xlsx".

Definition stamp_A : datetime := mkDatetime "2024-01-01T00:00:00+00:00".

Definition wb_batch : Workbook :=
  mkWorkbook ["Cover"; "BATCH SHEET (2)"]
    (fun name header =>
       if String.eqb name "BATCH SHEET (2)" && (header =? 0)%nat
       then Some (mkDF [("Sample ID", DObject); ("Result", DNumeric)]
                       [row_of 0 [("Sample ID", VStr "S1"); ("Result", VNum "5")]])
       else None).

Definition wb_no_match : Workbook := mkWorkbook ["Summary"] (fun _ _ => None).

Definition ctx_one_file (mtime : option datetime) (content : option BytesIO)
  : ClientContext :=
  mkCtx (Listing [("A.xlsx", url_A)] [])
        (fun u => if String.eqb u url_A then mtime else None)
        (fun u => if String.eqb u url_A then content else None).

Definition disk_fresh : Disk := mkDisk None None.

(** A reader that returns the frame that was written, and a writer that
    works; the same reader with a writer that raises and leaves the file
    as it was. *)
Definition io_ok : LocalIO := mkIO Some false (fun master => master).

Definition io_write_fails : LocalIO := mkIO Some true (fun master => master).

(** ** Reference notions for the walker *)

(** The files the walk is meant to reach: a file of the folder whose
    lowered name ends in [.xlsx] or [.xls], or such a file of a sub-folder
    that could be listed and whose name neither starts with an underscore
    nor is [Forms]. *)
Inductive listed : Folder -> string -> Prop :=
  | listed_here files folders name url :
      In (name, url) files ->
      (exists stem, PyStr.lower name = (stem ++ ".xlsx")%string \/
                    PyStr.lower name = (stem ++ ".xls")%string) ->
      listed (Listing files folders) url
  | listed_below files folders name sub url :
      In (name, sub) folders ->
      (forall rest, name <> ("_" ++ rest)%string) ->
      name <> "Forms" ->
      listed sub url ->
      listed (Listing files folders) url.

(** Induction over a folder tree, with the sub-folders as premises. *)
Fixpoint Folder_tree_ind (P : Folder -> Prop)
    (HU : P Unlistable)
    (HL : forall files folders,
        Forall (fun sub => P (snd sub)) folders -> P (Listing files folders))
    (folder : Folder) : P folder :=
  match folder with
  | Unlistable => HU
  | Listing files folders =>
      HL files folders
        ((fix go (l : list (string * Folder)) : Forall (fun sub => P (snd sub)) l :=
            match l with
            | [] => @List.Forall_nil _ _
            | p :: l' =>
                @List.Forall_cons _ _ p l'
                  (match p as p0 return P (snd p0) with
                   | (_, sub) => Folder_tree_ind P HU HL sub
                   end)
                  (go l')
            end) folders)
  end.

(** ** Reference notions for extraction *)

(** A frame that is still the initial empty frame, or has the
    [_SourceSheet] column. *)
Definition tagged_frame (df : DataFrame) : Prop :=
  df = pd.DataFrame_new \/ In "_SourceSheet" (pd.column_names df).

(** ** Reference notions for cleaning *)

(** The tests of the three row filters of cleaning, taken together. *)
Definition survives (df : DataFrame) (r : Row) : bool :=
  existsb (pd.notna r) (pd.column_names df)
  && negb (qc_mask df r)
  && forallb (pd.notna r) (key_columns_exist df).

Definition all_space (s : string) : Prop :=
  forallb PyStr.is_space (list_ascii_of_string s) = true.

(** [s'] neither starts nor ends with a whitespace character. *)
Definition no_outer_space (s' : string) : Prop :=
  (forall c rest, s' = String c rest -> PyStr.is_space c = false) /\
  (forall front c, s' = (front ++ String c "")%string -> PyStr.is_space c = false).

(** [s'] is [s] without the whitespace at its two ends. *)
Definition trims (s s' : string) : Prop :=
  no_outer_space s' /\
  exists ws1 ws2, s = (ws1 ++ s' ++ ws2)%string /\ all_space ws1 /\ all_space ws2.

(** What trimming makes of a cell of an object column: a string is
    trimmed, anything else is missing afterwards. *)
Definition trimmed_from (o o' : option value) : Prop :=
  match o with
  | Some (VStr s) => exists s', o' = Some (VStr s') /\ trims s s'
  | _ => o' = None
  end.

(** The cell of the returned row [r'] in column [col], against the cell
    of the input row [r0] it comes from. *)
Definition cell_after_cleaning (df : DataFrame) (r0 r' : Row) (col : string) : Prop :=
  if bool_decide (col ∈ pd.object_columns df)
  then trimmed_from (cells r0 !! col) (cells r' !! col)
  else cells r' !! col = cells r0 !! col.

(** ** Connecting

    The three credentials as [os.environ.get] returns them, and the site
    as what it answers to a connection with given credentials ([None] when
    the verification query raises). *)
Record Credentials := mkCredentials {
  SHAREPOINT_SITE_URL : option string;
  SHAREPOINT_CLIENT_ID : option string;
  SHAREPOINT_CLIENT_SECRET : option string
}.

(** Truthiness of [os.environ.get(...)]: unset and empty are both false. *)
Definition env_truthy (o : option string) : bool :=
  match o with
  | Some s => PyStr.truthy s
  | None => false
  end.

Definition connect_to_sharepoint (env : Credentials)
    (site : string -> string -> string -> option ClientContext)
  : option ClientContext :=
  if forallb env_truthy [SHAREPOINT_SITE_URL env; SHAREPOINT_CLIENT_ID env;
                         SHAREPOINT_CLIENT_SECRET env]
  then match SHAREPOINT_SITE_URL env, SHAREPOINT_CLIENT_ID env,
             SHAREPOINT_CLIENT_SECRET env with
       | Some site_url, Some client_id, Some client_secret =>
           site site_url client_id client_secret
       | _, _, _ => None
       end
  else None.

(** [run_etl()] with its first statement, [ctx = connect_to_sharepoint()]. *)
Definition run_etl_from_env (env : Credentials)
    (site : string -> string -> string -> option ClientContext)
    (io : LocalIO) (disk : Disk) : Disk * list event :=
  run_etl (connect_to_sharepoint env site) io disk.

(** ** Reference notions for the run, continued *)

(** The cells of the rows one file adds to the rows to append. *)
Definition appended_cells (ctx : ClientContext) (ledger : gmap string string)
    (file_url : string) : list (gmap string value) :=
  match extracted ctx ledger file_url with
  | Some (_, file_data) => map cells (rows (returned (clean_and_filter_data file_data)))
  | None => []
  end.

Definition remote_call (e : event) : bool :=
  match e with
  | CallTimeLastModified _ | CallOpenBinary _ => true
  | _ => false
  end.

(** The calls to the store that one round of the loop is meant to make:
    the modification-time query, then the download when the file is New
    or Modified. *)
Definition remote_calls_of (ctx : ClientContext) (ledger : gmap string string)
    (file_url : string) : list event :=
  CallTimeLastModified file_url ::
  match time_last_modified ctx file_url with
  | Some t =>
      match classify ledger file_url (isoformat t) with
      | Unchanged => []
      | New | Modified => [CallOpenBinary file_url]
      end
  | None => []
  end.

Definition url_old : string := "/Documents/lab/old.xlsx".

Definition disk_with_old_entry : Disk :=
  mkDisk (Some (json_iterencode {[url_old := "2023-05-01T00:00:00+00:00"]})) None.

(** A ledger file cut off after its opening brace. *)
Definition disk_corrupt_ledger : Disk := mkDisk (Some [JOpen]) None.

(** ** Reference notions for letter case *)

(** The capital letters of the Latin-1 range, and a capital with its
    small letter, 32 code points further. *)
Definition capital (c : ascii) : Prop :=
  let n := nat_of_ascii c in
  (65 <= n /\ n <= 90) \/ (192 <= n /\ n <= 222 /\ n <> 215).

Definition case_pair (u l : ascii) : Prop :=
  capital u /\ nat_of_ascii l = nat_of_ascii u + 32.

(** Two characters that are the same up to letter case. *)
Definition same_letter (a b : ascii) : Prop :=
  a = b \/ case_pair a b \/ case_pair b a.

(** Two texts that are the same up to letter case. *)
Inductive same_text : string -> string -> Prop :=
  | same_text_nil : same_text "" ""
  | same_text_cons a b s t :
      same_letter a b -> same_text s t -> same_text (String a s) (String b t).

(** [target] occurs in [name] in some letter casing. *)
Definition occurs_ci (target name : string) : Prop :=
  exists w, same_text w target /\ PyStr.substring_of w name.

(** [found] is the first of the [available] names in which [target]
    occurs in some letter casing, or nothing when there is none. *)
Definition first_sheet_matching (target : string) (available : list string)
    (found : option string) : Prop :=
  match found with
  | Some actual =>
      exists before after,
        available = before ++ actual :: after /\
        occurs_ci target actual /\
        Forall (fun name => ~ occurs_ci target name) before
  | None => Forall (fun name => ~ occurs_ci target name) available
  end.

(** ** Reference notions for cleaning, continued *)

(** The columns the trimming loop has trimmed when it ends. *)
Fixpoint stripped_columns (cols : list string) (df : DataFrame) : list string :=
  match cols with
  | [] => []
  | col :: rest =>
      if pd.str_accessor_raises col df then []
      else col :: stripped_columns rest (pd.strip_column col df)
  end.

(** The rows cleaning is meant to keep, in words that do not use the
    tests of the code: some column of the frame has a value; in no column
    of the frame does the text of the cell contain one of "CCV", "MB",
    "Blank", "Check" in some letter casing; and each of "Sample ID" and
    "Result" that is a column of the frame has a value. *)
Definition kept_by_cleaning (df : DataFrame) (r : Row) : Prop :=
  (exists col, In col (pd.column_names df) /\ cells r !! col <> None) /\
  (forall col marker,
     In col (pd.column_names df) ->
     In marker ["CCV"; "MB"; "Blank"; "Check"] ->
     ~ occurs_ci marker (pd.astype_str (cells r !! col))) /\
  (forall key,
     In key ["Sample ID"; "Result"] -> In key (pd.column_names df) ->
     cells r !! key <> None).

(** A frame with an object column in which only a number is left once
    the QC row is gone. *)
Definition df_number_left : DataFrame :=
  mkDF [("Note", DObject); ("_SourceSheet", DObject)]
       [row_of 0 [("Note", VNum "7"); ("_SourceSheet", VStr "Batch Sheet")];
        row_of 1 [("Note", VStr "check sample"); ("_SourceSheet", VStr "Batch Sheet")]].

(** ** Reference notions for the run, continued *)

(** The round of a file ends on the exception of cleaning. *)
Definition round_raises (ctx : ClientContext) (ledger : gmap string string)
    (file_url : string) : bool :=
  match extracted ctx ledger file_url with
  | Some (_, file_data) => raised (clean_and_filter_data file_data)
  | None => false
  end.

(** The files of a listing whose round is started, and those whose round
    is completed, when [raises] tells the rounds that end on an
    exception: the loop stops with the first of these. *)
Fixpoint started_rounds (raises : string -> bool) (files : list string) : list string :=
  match files with
  | [] => []
  | f :: rest => f :: (if raises f then [] else started_rounds raises rest)
  end.

Fixpoint completed_rounds (raises : string -> bool) (files : list string) : list string :=
  match files with
  | [] => []
  | f :: rest => if raises f then [] else f :: completed_rounds raises rest
  end.

(** What is printed and asked of the store once a file is selected: the
    download, then, when it succeeds, extraction from the content and,
    when extraction returns rows, cleaning. *)
Definition processing_events (ctx : ClientContext) (file_url : string) : list event :=
  CallOpenBinary file_url ::
  match open_binary ctx file_url with
  | None => [ErrorReadingFile file_url; CouldNotReadContent file_url]
  | Some file_content =>
      snd (process_excel_file file_content)
      ++ (if pd.empty (fst (process_excel_file file_content))
          then [NoDataExtracted file_url]
          else printed (clean_and_filter_data (fst (process_excel_file file_content))))
  end.

(** What is printed and asked of the store in the round of one file,
    by the change state of the file. *)
Definition round_events (ctx : ClientContext) (ledger : gmap string string)
    (file_url : string) : list event :=
  CallTimeLastModified file_url ::
  match time_last_modified ctx file_url with
  | None => [ErrorGettingModifiedTime file_url; CouldNotGetModifiedTime file_url]
  | Some t =>
      match classify ledger file_url (isoformat t) with
      | Unchanged => [SkippingNotModified file_url]
      | New => ProcessingNew file_url :: processing_events ctx file_url
      | Modified => ProcessingModified file_url :: processing_events ctx file_url
      end
  end.

(** The state of the loop after the round of a file that is New or
    Modified: nothing gathered or recorded when no row is extracted; the
    cleaned rows gathered and the time recorded when cleaning returns;
    the run over when cleaning raises. *)
Definition after_round (ctx : ClientContext) (ledger : gmap string string)
    (st : LoopState) (file_url : string) : LoopState :=
  match extracted ctx ledger file_url with
  | Some (t, file_data) =>
      if raised (clean_and_filter_data file_data)
      then mkLoop (data_to_append st) (updated_processed_files_log st)
                  (out st ++ round_events ctx ledger file_url) true
      else mkLoop (pd.concat (data_to_append st)
                     (returned (clean_and_filter_data file_data)))
                  (<[file_url := t]> (updated_processed_files_log st))
                  (out st ++ round_events ctx ledger file_url) false
  | None =>
      mkLoop (data_to_append st) (updated_processed_files_log st)
             (out st ++ round_events ctx ledger file_url) false
  end.

(** A store with two workbooks: cleaning raises on the first. *)
Definition url_B : string := "/Documents/lab/B.xlsx".

Definition wb_number_left : Workbook :=
  mkWorkbook ["Batch Sheet"]
    (fun name header =>
       if String.eqb name "Batch Sheet" && (header =? 0)%nat
       then Some (mkDF [("Note", DObject)]
                       [row_of 0 [("Note", VNum "7")];
                        row_of 1 [("Note", VStr "check sample")]])
       else None).

Definition ctx_two_files : ClientContext :=
  mkCtx (Listing [("A.xlsx", url_A); ("B.xlsx", url_B)] [])
        (fun _ => Some stamp_A)
        (fun u => if String.eqb u url_A then Some (Some wb_number_left)
                  else Some (Some wb_batch)).

(** The store answers the calls of a second run as it answered those of
    a first: both runs are connected or neither is, the listing is the
    same, and for every listed file the modification-time query and the
    download give the same result, failures included. *)
Definition same_answers (first second : option ClientContext) : Prop :=
  match first, second with
  | None, None => True
  | Some ctx1, Some ctx2 =>
      list_excel_files_recursive (root_folder ctx2)
      = list_excel_files_recursive (root_folder ctx1) /\
      forall url, url ∈ list_excel_files_recursive (root_folder ctx1) ->
                  time_last_modified ctx2 url = time_last_modified ctx1 url /\
                  open_binary ctx2 url = open_binary ctx1 url
  | _, _ => False
  end.

(** Reading and writing the master workbook cannot raise in a run that
    starts from [disk]. *)
Definition master_io_works (io : LocalIO) (disk : Disk) : Prop :=
  to_excel_raises io = false /\
  forall written, master_file disk = Some written -> is_Some (read_excel io written).


(** The three credentials are set and not empty, and the site accepts
    them and gives [ctx]. *)
Definition verified_connection (env : Credentials)
    (site : string -> string -> string -> option ClientContext)
    (ctx : ClientContext) : Prop :=
  exists site_url client_id client_secret,
    SHAREPOINT_SITE_URL env = Some site_url /\ site_url <> "" /\
    SHAREPOINT_CLIENT_ID env = Some client_id /\ client_id <> "" /\
    SHAREPOINT_CLIENT_SECRET env = Some client_secret /\ client_secret <> "" /\
    site site_url client_id client_secret = Some ctx.
(** * Properties *)

(** ** Strings *)

Section StringFacts.

Lemma startswith_spec p s :
  PyStr.startswith p s = true <-> exists post, s = (p ++ post)%string.
Proof.
  revert s. induction p as [|a p IH]; intros s; simpl.
  - split; [intros _; by exists s | done].
  - destruct s as [|b s].
    + split; [done | intros [post H]; discriminate].
    + rewrite andb_true_iff, Ascii.eqb_eq, IH. split.
      * intros [-> [post ->]]. by exists post.
      * intros [post H]. injection H as -> ->. eauto.
Qed.

Lemma str_in_spec needle hay :
  PyStr.str_in needle hay = true <-> PyStr.substring_of needle hay.
Proof.
  unfold PyStr.substring_of. induction hay as [|c hay IH].
  - simpl. rewrite orb_false_r, startswith_spec. split.
    + intros [post H]. by exists "", post.
    + intros ([|? pre] & post & H); [by exists post | discriminate].
  - cbn [PyStr.str_in]. rewrite orb_true_iff, startswith_spec, IH. split.
    + intros [[post H] | (pre & post & H)].
      * by exists "", post.
      * exists (String c pre), post. simpl. by rewrite H.
    + intros ([|c' pre] & post & H).
      * left. by exists post.
      * right. injection H as -> H. by exists pre, post.
Qed.

Lemma lower_app a b : PyStr.lower (a ++ b) = (PyStr.lower a ++ PyStr.lower b)%string.
Proof. induction a as [|c a IH]; simpl; [done | by rewrite IH]. Qed.

Lemma lower_split s a b :
  PyStr.lower s = (a ++ b)%string ->
  exists s1 s2, s = (s1 ++ s2)%string /\ PyStr.lower s1 = a /\ PyStr.lower s2 = b.
Proof.
  revert s. induction a as [|c a IH]; intros s H.
  - by exists "", s.
  - destruct s as [|d s]; [discriminate |].
    simpl in H. injection H as Hc H.
    destruct (IH _ H) as (s1 & s2 & -> & <- & <-).
    exists (String d s1), s2. simpl. by rewrite Hc.
Qed.

(** [contains_ci pat s] holds exactly when some spelling of [pat] that
    differs from it only in letter case occurs in [s]. *)
Lemma contains_ci_spec pat s :
  PyStr.contains_ci pat s = true <->
  exists w, PyStr.lower w = PyStr.lower pat /\ PyStr.substring_of w s.
Proof.
  unfold PyStr.contains_ci. rewrite str_in_spec. split.
  - intros (pre & post & H).
    destruct (lower_split _ _ _ H) as (s1 & s' & -> & _ & H').
    destruct (lower_split _ _ _ H') as (w & s2 & -> & Hw & _).
    exists w. split; [done | by exists s1, s2].
  - intros (w & Hw & pre & post & ->).
    exists (PyStr.lower pre), (PyStr.lower post).
    by rewrite !lower_app, Hw.
Qed.

End StringFacts.

(** ** Lists *)

Section ListFacts.

Context {A : Type}.

Lemma filter_fixed_iff (f : A -> bool) (l : list A) :
  List.filter f l = l <-> forallb f l = true.
Proof.
  induction l as [|a l IH]; simpl; [done |].
  destruct (f a) eqn:Hf; simpl.
  - rewrite <- IH. split; [by intros [= ->] | by intros ->].
  - split; [| done]. intros H.
    pose proof (List.filter_length_le f l) as Hle.
    rewrite H in Hle. simpl in Hle. lia.
Qed.

Lemma filter_twice (f : A -> bool) (l : list A) :
  List.filter f (List.filter f l) = List.filter f l.
Proof.
  apply filter_fixed_iff, forallb_forall.
  intros x Hx. by apply filter_In in Hx as [_ ?].
Qed.

Lemma NoDup_map_inj_on (g : A -> nat) (l : list A) (x y : A) :
  List.NoDup (map g l) -> In x l -> In y l -> g x = g y -> x = y.
Proof.
  induction l as [|a l IH]; simpl; [done |].
  intros Hnd Hx Hy Hg. apply List.NoDup_cons_iff in Hnd as [Hna Hnd].
  destruct Hx as [-> | Hx], Hy as [-> | Hy]; auto.
  - exfalso. apply Hna. rewrite Hg. by apply in_map.
  - exfalso. apply Hna. rewrite <- Hg. by apply in_map.
Qed.

End ListFacts.


(** ** Letter case *)

Section LetterCase.

Lemma is_upper_capital c : PyStr.is_upper c = true <-> capital c.
Proof.
  unfold PyStr.is_upper, capital. cbn zeta.
  rewrite orb_true_iff, !andb_true_iff, negb_true_iff, !Nat.leb_le, Nat.eqb_neq.
  tauto.
Qed.

Lemma is_upper_not_capital c : PyStr.is_upper c = false <-> ~ capital c.
Proof.
  rewrite <- is_upper_capital. by destruct (PyStr.is_upper c).
Qed.

Lemma nat_of_ascii_inj a b : nat_of_ascii a = nat_of_ascii b -> a = b.
Proof.
  intros H. by rewrite <- (ascii_nat_embedding a), H, ascii_nat_embedding.
Qed.

Lemma lower_of_capital u :
  capital u -> nat_of_ascii (PyStr.lower_ascii u) = nat_of_ascii u + 32.
Proof.
  intros Hu. unfold PyStr.lower_ascii.
  rewrite (proj2 (is_upper_capital u) Hu).
  apply nat_ascii_embedding. unfold capital in Hu. cbn zeta in Hu. lia.
Qed.

Lemma lower_of_small c : ~ capital c -> PyStr.lower_ascii c = c.
Proof.
  intros Hc. unfold PyStr.lower_ascii.
  by rewrite (proj2 (is_upper_not_capital c) Hc).
Qed.

Lemma case_pair_small u l : case_pair u l -> ~ capital l.
Proof.
  intros [Hu Hl]. unfold capital in *. cbn zeta in *. lia.
Qed.

Lemma lower_ascii_same a b :
  PyStr.lower_ascii a = PyStr.lower_ascii b <-> same_letter a b.
Proof.
  split.
  - intros H. apply (f_equal nat_of_ascii) in H.
    destruct (PyStr.is_upper a) eqn:Ha, (PyStr.is_upper b) eqn:Hb.
    + apply is_upper_capital in Ha, Hb.
      rewrite !lower_of_capital in H by done.
      left. apply nat_of_ascii_inj. lia.
    + apply is_upper_capital in Ha. apply is_upper_not_capital in Hb.
      rewrite lower_of_capital, lower_of_small in H by done.
      right. left. by split.
    + apply is_upper_not_capital in Ha. apply is_upper_capital in Hb.
      rewrite lower_of_small, lower_of_capital in H by done.
      right. right. by split.
    + apply is_upper_not_capital in Ha, Hb.
      rewrite !lower_of_small in H by done.
      left. by apply nat_of_ascii_inj.
  - intros [-> | [Hp | Hp]]; [done | |].
    + pose proof (case_pair_small _ _ Hp) as Hs. destruct Hp as [Hu Hl].
      apply nat_of_ascii_inj.
      rewrite (lower_of_capital a), (lower_of_small b) by done. lia.
    + pose proof (case_pair_small _ _ Hp) as Hs. destruct Hp as [Hu Hl].
      apply nat_of_ascii_inj.
      rewrite (lower_of_capital b), (lower_of_small a) by done. lia.
Qed.

Lemma same_text_lower w t : same_text w t <-> PyStr.lower w = PyStr.lower t.
Proof.
  split.
  - induction 1 as [|a b s t Hab _ IH]; [done |].
    cbn [PyStr.lower]. f_equal; [by apply lower_ascii_same | done].
  - revert t. induction w as [|a w IH]; intros [|b t] H; try done.
    + constructor.
    + cbn [PyStr.lower] in H. injection H as Hab H.
      constructor; [by apply lower_ascii_same | by apply IH].
Qed.

Lemma occurs_ci_contains target name :
  occurs_ci target name <-> PyStr.contains_ci target name = true.
Proof.
  rewrite contains_ci_spec. unfold occurs_ci.
  split; intros (w & Hw & Hs); exists w; (split; [| done]); by apply same_text_lower.
Qed.

End LetterCase.

(** ** The cleaning stage *)

Section Cleaning.

Lemma strip_columns_rows cols d :
  rows (fold_left (fun d col => pd.strip_column col d) cols d)
  = map (fun r => mkRow (label r)
                    (fold_left (fun m col => partial_alter (fun o => o ≫= pd.str_strip) col m)
                               cols (cells r)))
        (rows d).
Proof.
  revert d. induction cols as [|c cols IH]; intros d; simpl.
  - rewrite <- (map_id (rows d)) at 1. apply map_ext. by intros [].
  - rewrite IH. simpl. rewrite map_map. done.
Qed.

Lemma strip_columns_columns cols d :
  columns (fold_left (fun d col => pd.strip_column col d) cols d) = columns d.
Proof. revert d. induction cols as [|c cols IH]; intros d; simpl; [done | by rewrite IH]. Qed.

(** The loop ends with the frame in which the columns it went through
    are trimmed; it went through all of them unless it raised. *)
Lemma strip_loop_frame cols : forall d,
  fst (strip_loop cols d)
  = fold_left (fun d col => pd.strip_column col d) (stripped_columns cols d) d.
Proof.
  induction cols as [|c cols IH]; intros d; [done |].
  cbn [strip_loop stripped_columns].
  destruct (pd.str_accessor_raises c d); [done |]. cbn [fold_left]. apply IH.
Qed.

Lemma strip_loop_all cols : forall d,
  snd (strip_loop cols d) = false -> stripped_columns cols d = cols.
Proof.
  induction cols as [|c cols IH]; intros d; [done |].
  cbn [strip_loop stripped_columns].
  destruct (pd.str_accessor_raises c d); [done |]. intros H. f_equal. by apply IH.
Qed.

Lemma stage4_rows df :
  rows (stage4 df)
  = map (fun r => mkRow (label r)
                    (fold_left (fun m col => partial_alter (fun o => o ≫= pd.str_strip) col m)
                               (stripped_columns (pd.object_columns df) df) (cells r)))
        (rows df).
Proof. unfold stage4. by rewrite strip_loop_frame, strip_columns_rows. Qed.

Lemma stage4_columns df : columns (stage4 df) = columns df.
Proof. unfold stage4. by rewrite strip_loop_frame, strip_columns_columns. Qed.

Lemma stage4_len df : pd.len (stage4 df) = pd.len df.
Proof. unfold pd.len. by rewrite stage4_rows, length_map. Qed.

Lemma stage1_len df : pd.len (stage1 df) <= pd.len df.
Proof. apply List.filter_length_le. Qed.

Lemma stage2_len df : pd.len (stage2 df) <= pd.len df.
Proof. apply List.filter_length_le. Qed.

Lemma stage3_len df : pd.len (stage3 df) <= pd.len df.
Proof.
  unfold stage3. destruct (key_columns_exist df); [done |].
  apply List.filter_length_le.
Qed.

Lemma stage1_idempotent df : stage1 (stage1 df) = stage1 df.
Proof.
  unfold stage1, pd.dropna_all, pd.column_names. simpl. by rewrite filter_twice.
Qed.

(** Every row that is returned descends from a row of the input that
    survived the QC mask, and keeps its label. *)
Lemma returned_row_origin df r' :
  In r' (rows (returned (clean_and_filter_data df))) ->
  exists r, In r (rows df) /\ label r' = label r /\ qc_mask df r = false.
Proof.
  cbn [clean_and_filter_data returned]. rewrite stage4_rows. intros Hin.
  apply in_map_iff in Hin as (r & <- & Hin). exists r. cbn [label].
  assert (In r (rows (stage2 (stage1 df)))) as H2.
  { unfold stage3 in Hin. destruct (key_columns_exist _); [done |].
    simpl in Hin. by apply filter_In in Hin as [? _]. }
  simpl in H2. apply filter_In in H2 as [H1 Hq].
  apply filter_In in H1 as [H0 _].
  split; [done |]. split; [done |]. by apply negb_true_iff in Hq.
Qed.

End Cleaning.

(** C6. Cleaning never adds rows: the row count after blank-row removal,
    after QC filtering, after required-key filtering and after trimming
    is at most the count before that stage, so the frame the function
    ends with has at most as many rows as the input; the counts that are
    printed are these, the last of them when the trimming step does not
    raise. *)
Theorem clean_row_count_monotone (df : DataFrame) :
  let d1 := stage1 df in
  let d2 := stage2 d1 in
  let d3 := stage3 d2 in
  let d4 := stage4 d3 in
  pd.len d1 <= pd.len df /\ pd.len d2 <= pd.len d1 /\
  pd.len d3 <= pd.len d2 /\ pd.len d4 <= pd.len d3 /\
  returned (clean_and_filter_data df) = d4 /\
  pd.len (returned (clean_and_filter_data df)) <= pd.len df /\
  In (RowsAfterBlank (pd.len d1)) (printed (clean_and_filter_data df)) /\
  In (RowsAfterQC (pd.len d2)) (printed (clean_and_filter_data df)) /\
  (if raised (clean_and_filter_data df)
   then ~ In (FinalRows (pd.len d4)) (printed (clean_and_filter_data df))
   else In (FinalRows (pd.len d4)) (printed (clean_and_filter_data df))).
Proof.
  intros d1 d2 d3 d4.
  pose proof (stage1_len df) as H1.
  pose proof (stage2_len d1) as H2.
  pose proof (stage3_len d2) as H3.
  pose proof (stage4_len d3) as H4.
  fold d1 d2 d3 d4 in H1, H2, H3, H4.
  repeat split; try lia; try done.
  - change (returned (clean_and_filter_data df)) with d4. lia.
  - simpl. auto.
  - simpl. auto.
  - unfold clean_and_filter_data. cbn [printed raised]. fold d1 d2 d3.
    destruct (stage4_raises d3).
    + rewrite app_nil_r. cbn [app In].
      destruct (key_columns_exist d2); simpl; intuition discriminate.
    + apply in_or_app. right. apply in_or_app. right. by left.
Qed.

(** C7. QC exclusion: a row with a column whose text contains "Blank" in
    some letter casing is masked as a QC row; every row of the frame that
    cleaning returns descends from another row of the input; and, the
    index labels of the input being distinct, no row that is returned
    carries the label of that row. *)
Theorem qc_blank_row_absent (df : DataFrame) (r : Row) (col w : string) :
  In r (rows df) ->
  In col (pd.column_names df) ->
  PyStr.lower w = "blank" ->
  PyStr.substring_of w (pd.astype_str (cells r !! col)) ->
  qc_mask df r = true /\
  (forall r', In r' (rows (returned (clean_and_filter_data df))) ->
              exists r0, In r0 (rows df) /\ label r' = label r0 /\ r0 <> r) /\
  (List.NoDup (map label (rows df)) ->
   forall r', In r' (rows (returned (clean_and_filter_data df))) ->
              label r' <> label r).
Proof.
  intros Hr Hcol Hw Hsub.
  assert (qc_mask df r = true) as Hq.
  { unfold qc_mask. apply existsb_exists. exists col. split; [done |].
    unfold pd.str_contains_ci. apply existsb_exists. exists "Blank".
    split; [simpl; auto |].
    apply contains_ci_spec. exists w. by split. }
  split; [done |]. split.
  - intros r' Hr'.
    destruct (returned_row_origin df r' Hr') as (r0 & Hr0 & Hl0 & Hq0).
    exists r0. repeat split; [done.. |]. intros ->. congruence.
  - intros Hnd r' Hr' Hlab.
    destruct (returned_row_origin df r' Hr') as (r0 & Hr0 & Hl0 & Hq0).
    assert (r0 = r) as ->; [| congruence].
    apply (NoDup_map_inj_on label (rows df)); [done.. | congruence].
Qed.

Lemma qc_blank_row_absent_witness :
  Forall (fun r' => label r' <> 1)
         (rows (returned (clean_and_filter_data df_lab_results))).
Proof.
  apply List.Forall_forall.
  apply (qc_blank_row_absent df_lab_results
           (row_of 1 [("Sample ID", VStr "Method BLANK 2"); ("Result", VNum "0");
                      ("_SourceSheet", VStr "Batch Sheet")])
           "Sample ID" "BLANK").
  - simpl. auto.
  - simpl. auto.
  - reflexivity.
  - exists "Method ", " 2". reflexivity.
  - simpl. repeat constructor; simpl; intuition lia.
Defined.

(** C10, as the code has it. Cleaning is a function of the frame it is
    given, but it works in place on that frame in its first step: after
    the call the caller's frame has lost its fully blank rows, and is
    untouched exactly when it had none. The later steps work on a frame
    of their own, so a second call on the same, already pruned, frame
    returns an equal result. *)
Theorem clean_mutates_only_blank_rows (df : DataFrame) :
  argument_after (clean_and_filter_data df) = pd.dropna_all df /\
  (argument_after (clean_and_filter_data df) = df <-> no_blank_row df = true) /\
  returned (clean_and_filter_data (argument_after (clean_and_filter_data df)))
  = returned (clean_and_filter_data df).
Proof.
  split; [done |]. split.
  - cbn [clean_and_filter_data argument_after]. unfold stage1, pd.dropna_all, no_blank_row.
    rewrite <- filter_fixed_iff. destruct df as [cols rs]. simpl.
    split; [by intros [= ->] | by intros ->].
  - cbn [clean_and_filter_data returned argument_after].
    by rewrite stage1_idempotent.
Qed.

(** C10, as stated, fails: a frame with one fully blank row is not the
    same after the call. *)
Lemma clean_mutates_argument :
  ~ (forall df, argument_after (clean_and_filter_data df) = df).
Proof.
  intros H. specialize (H df_one_blank_row).
  apply (f_equal pd.len) in H. vm_compute in H. discriminate.
Qed.

(** ** Extraction *)

Section Extraction.

Lemma find_sheet_first_match t names : first_match t names (find_sheet t names).
Proof.
  induction names as [|n names IH]; simpl; [constructor |].
  destruct (PyStr.str_in (PyStr.lower t) (PyStr.lower n)) eqn:Hn.
  - exists [], names. by repeat split.
  - destruct (find_sheet t names) as [a|]; simpl in *.
    + destruct IH as (before & after & -> & Ha & Hb).
      exists (n :: before), after. repeat split; [done |]. by constructor.
    + by constructor.
Qed.

Lemma find_sheet_truthy t names a :
  t <> "" -> find_sheet t names = Some a -> PyStr.truthy a = true.
Proof.
  intros Ht H. pose proof (find_sheet_first_match t names) as Hf.
  rewrite H in Hf. destruct Hf as (_ & _ & _ & Ha & _).
  destruct a; [| done]. destruct t; [done | discriminate].
Qed.

Lemma relabel_cells n rs : map cells (pd.relabel_from n rs) = map cells rs.
Proof. revert n. induction rs as [|r rs IH]; intros n; simpl; [done | by rewrite IH]. Qed.

Lemma relabel_labels n rs : map label (pd.relabel_from n rs) = seq n (length rs).
Proof. revert n. induction rs as [|r rs IH]; intros n; simpl; [done | by rewrite IH]. Qed.

Lemma relabel_length n rs : length (pd.relabel_from n rs) = length rs.
Proof. revert n. induction rs as [|r rs IH]; intros n; simpl; [done | by rewrite IH]. Qed.

Lemma concat_cells a b :
  map cells (rows (pd.concat a b)) = map cells (rows a) ++ map cells (rows b).
Proof. simpl. by rewrite relabel_cells, map_app. Qed.

Lemma concat_len a b : pd.len (pd.concat a b) = pd.len a + pd.len b.
Proof. unfold pd.len. simpl. by rewrite relabel_length, length_app. Qed.

Lemma concat_range_index a b : range_index (pd.concat a b).
Proof. unfold range_index. simpl. by rewrite relabel_labels, relabel_length. Qed.

Lemma process_sheet_step xls d evs t :
  t <> "" ->
  exists d',
    process_sheet xls (d, evs) t = (d', evs ++ sheet_events xls t) /\
    map cells (rows d') = map cells (rows d) ++ tagged_cells xls t /\
    (range_index d -> range_index d').
Proof.
  intros Ht. unfold process_sheet, sheet_events, tagged_cells.
  destruct (find_sheet t (sheet_names xls)) as [a|] eqn:Hf.
  - rewrite (find_sheet_truthy _ _ _ Ht Hf).
    destruct (parse xls a default_header) as [df|].
    + eexists. split; [done |]. split; [| intros _; apply concat_range_index].
      rewrite concat_cells. f_equal. simpl. by rewrite map_map.
    + exists d. by rewrite app_nil_r.
  - exists d. by rewrite app_nil_r.
Qed.

Lemma process_sheets_fold xls ts : forall d evs,
  Forall (fun t => t <> "") ts ->
  exists d',
    fold_left (process_sheet xls) ts (d, evs) = (d', evs ++ flat_map (sheet_events xls) ts) /\
    map cells (rows d') = map cells (rows d) ++ flat_map (tagged_cells xls) ts /\
    (range_index d -> range_index d').
Proof.
  induction ts as [|t ts IH]; intros d evs Hts; cbn [fold_left flat_map].
  - exists d. by rewrite !app_nil_r.
  - apply Forall_cons in Hts as [Ht Hts].
    destruct (process_sheet_step xls d evs t Ht) as (d1 & -> & Hc1 & Hr1).
    destruct (IH d1 (evs ++ sheet_events xls t) Hts) as (d' & -> & Hc & Hr).
    exists d'. rewrite Hc, Hc1, <- !app_assoc. auto.
Qed.

Lemma sheets_to_process_nonempty : Forall (fun t => t <> "") sheets_to_process.
Proof. repeat constructor; discriminate. Qed.

Lemma warning_in_sheet_events xls t t' :
  In (WarningSheetNotFound t) (sheet_events xls t') <->
  t = t' /\ find_sheet t' (sheet_names xls) = None.
Proof.
  unfold sheet_events. destruct (find_sheet t' (sheet_names xls)) as [a|].
  - split; [| by intros [_ ?]].
    destruct (parse xls a default_header); simpl; intros H; intuition discriminate.
  - simpl. split; [intros [[= ->] | []]; done | intros [-> _]; by left].
Qed.

Lemma process_excel_file_events xls :
  snd (process_excel_file (Some xls)) = flat_map (sheet_events xls) sheets_to_process.
Proof.
  unfold process_excel_file.
  destruct (process_sheets_fold xls sheets_to_process pd.DataFrame_new []
              sheets_to_process_nonempty) as (d' & -> & _). done.
Qed.

Lemma process_excel_file_no_remote_call file_content u :
  ~ In (CallOpenBinary u) (snd (process_excel_file file_content)).
Proof.
  destruct file_content as [xls|]; [| simpl; intuition discriminate].
  rewrite process_excel_file_events, in_flat_map. intros (t & _ & H).
  unfold sheet_events in H.
  destruct (find_sheet t (sheet_names xls)) as [a|];
    [destruct (parse xls a default_header) |]; simpl in H; intuition discriminate.
Qed.

Lemma find_sheet_first_sheet_matching t names :
  first_sheet_matching t names (find_sheet t names).
Proof.
  pose proof (find_sheet_first_match t names) as H.
  unfold first_match, first_sheet_matching in *.
  destruct (find_sheet t names) as [a|].
  - destruct H as (before & after & -> & Ha & Hb).
    exists before, after. split; [done |]. split; [by apply occurs_ci_contains |].
    eapply Forall_impl; [exact Hb |]. cbn. intros n Hn Ho.
    apply occurs_ci_contains in Ho. congruence.
  - eapply Forall_impl; [exact H |]. cbn. intros n Hn Ho.
    apply occurs_ci_contains in Ho. congruence.
Qed.

End Extraction.

(** C8. For a workbook that opens, and the target names "Batch Sheet" and
    "Product Info" in this order: the sheet chosen for a target is the
    first sheet name in which the target occurs in some letter casing; a
    target without such a sheet, and only such a target, gets a warning,
    and the failure message of the whole file is never printed; the rows
    that come back are, target after target and in the order of each
    sheet, the rows of the chosen sheet parsed with its first row as
    column labels, with [_SourceSheet] set to the name of the chosen
    sheet; they are numbered from zero. *)
Theorem extraction_by_target (xls : Workbook) :
  let result := process_excel_file (Some xls) in
  Forall (fun t =>
            first_sheet_matching t (sheet_names xls) (find_sheet t (sheet_names xls)) /\
            (In (WarningSheetNotFound t) (snd result) <->
             find_sheet t (sheet_names xls) = None))
         sheets_to_process /\
  ~ In ErrorProcessingExcelContent (snd result) /\
  snd result = flat_map (sheet_events xls) sheets_to_process /\
  map cells (rows (fst result))
  = flat_map (fun t =>
                match find_sheet t (sheet_names xls) with
                | Some actual =>
                    match parse xls actual 0 with
                    | Some df =>
                        map (fun r => <["_SourceSheet" := VStr actual]> (cells r))
                            (rows df)
                    | None => []
                    end
                | None => []
                end) sheets_to_process /\
  range_index (fst result).
Proof.
  intros result. subst result. unfold process_excel_file.
  destruct (process_sheets_fold xls sheets_to_process pd.DataFrame_new []
              sheets_to_process_nonempty) as (d' & -> & Hc & Hr).
  cbn [fst snd app]. simpl in Hc.
  assert (forall t, In t sheets_to_process ->
            (In (WarningSheetNotFound t) (flat_map (sheet_events xls) sheets_to_process)
             <-> find_sheet t (sheet_names xls) = None)) as Hw.
  { intros t Ht. rewrite in_flat_map. split.
    - intros (t' & _ & H). apply warning_in_sheet_events in H as [-> H]. done.
    - intros H. exists t. split; [done |]. by apply warning_in_sheet_events. }
  split; [| split; [| split; [| split]]]; try done.
  - apply Forall_forall. intros t Ht. apply list_elem_of_In in Ht. split.
    + apply find_sheet_first_sheet_matching.
    + by apply Hw.
  - rewrite in_flat_map. intros (t & _ & H). unfold sheet_events in H.
    destruct (find_sheet t (sheet_names xls)) as [a|];
      [destruct (parse xls a default_header) |]; simpl in H; intuition discriminate.
  - by apply Hr.
Qed.


(** ** The ledger file *)

Section LedgerFile.

Lemma write_chunks text acc :
  fold_left exec_op (map WriteChunk text) (Some acc) = Some (acc ++ text).
Proof.
  revert acc. induction text as [|c text IH]; intros acc; simpl.
  - by rewrite app_nil_r.
  - rewrite IH. by rewrite <- app_assoc.
Qed.

Lemma save_complete log_file processed_files :
  save_processed_files_log log_file processed_files
  = Some (json_iterencode processed_files).
Proof.
  unfold save_processed_files_log, save_ops. cbn [fold_left exec_op].
  by rewrite fold_left_app, write_chunks.
Qed.

Lemma json_pairs_encoded kvs acc :
  json_pairs (map (fun kv => JPair (fst kv) (snd kv)) kvs ++ [JClose]) acc
  = Some (fold_left (fun m kv => <[fst kv := snd kv]> m) kvs acc).
Proof.
  revert acc. induction kvs as [|[k v] kvs IH]; intros acc; [done |].
  cbn [map app json_pairs fold_left]. rewrite <- IH.
  destruct (map _ kvs ++ [JClose]) eqn:E; [| done].
  by destruct kvs.
Qed.

Lemma fold_insert_lookup (kvs : list (string * string)) (acc : gmap string string) k :
  NoDup kvs.*1 ->
  fold_left (fun m kv => <[fst kv := snd kv]> m) kvs acc !! k
  = match (list_to_map kvs : gmap string string) !! k with
    | Some v => Some v
    | None => acc !! k
    end.
Proof.
  revert acc. induction kvs as [|[k0 v0] kvs IH]; intros acc Hnd; [done |].
  apply NoDup_cons in Hnd as [Hk0 Hnd]. cbn [fold_left fst snd].
  rewrite IH by done. rewrite list_to_map_cons.
  destruct (decide (k0 = k)) as [-> | Hne].
  - rewrite lookup_insert_eq.
    rewrite (not_elem_of_list_to_map_1 (M := gmap string)) by done.
    by rewrite lookup_insert_eq.
  - rewrite !lookup_insert_ne by done. done.
Qed.

Lemma json_roundtrip processed_files :
  json_load (json_iterencode processed_files) = Some processed_files.
Proof.
  unfold json_load, json_iterencode. rewrite json_pairs_encoded. f_equal.
  apply map_eq. intros k.
  rewrite fold_insert_lookup by apply NoDup_fst_map_to_list.
  rewrite list_to_map_to_list, lookup_empty. by destruct (processed_files !! k).
Qed.

Lemma load_after_save log_file processed_files :
  load_processed_files_log (save_processed_files_log log_file processed_files)
  = (processed_files, []).
Proof.
  rewrite save_complete. unfold load_processed_files_log.
  by rewrite json_roundtrip.
Qed.

End LedgerFile.

Section LedgerFileInterrupted.

Lemma write_chunks_cut text : forall n acc,
  fold_left exec_op (firstn n (map WriteChunk text ++ [CloseFile])) (Some acc)
  = Some (acc ++ firstn n text).
Proof.
  induction text as [|c text IH]; intros [|n] acc; simpl;
    rewrite ?app_nil_r; try done.
  - by destruct n.
  - rewrite IH. by rewrite <- app_assoc.
Qed.

Lemma save_cut k log_file processed_files :
  save_interrupted k log_file processed_files
  = match k with
    | 0 => log_file
    | S n => Some (firstn n (json_iterencode processed_files))
    end.
Proof.
  destruct k as [|n]; [done |].
  unfold save_interrupted, save_ops. cbn [firstn fold_left exec_op].
  by rewrite write_chunks_cut.
Qed.

Lemma json_pairs_unclosed kvs acc :
  json_pairs (map (fun kv : string * string => JPair (fst kv) (snd kv)) kvs) acc = None.
Proof.
  revert acc. induction kvs as [|[k v] kvs IH]; intros acc; [done |].
  cbn [map json_pairs fst snd]. apply IH.
Qed.

Lemma json_load_cut processed_files n :
  n < length (json_iterencode processed_files) ->
  json_load (firstn n (json_iterencode processed_files)) = None.
Proof.
  unfold json_iterencode. intros Hn. destruct n as [|n]; [done |].
  cbn [firstn json_load]. cbn [length] in Hn.
  rewrite length_app, length_map in Hn. cbn [length] in Hn.
  rewrite firstn_app, length_map.
  replace (n - length (map_to_list processed_files)) with 0 by lia.
  cbn [firstn]. rewrite app_nil_r, firstn_map. apply json_pairs_unclosed.
Qed.

End LedgerFileInterrupted.

(** C5, as the code has it. The ledger is written in place: opening the
    file for writing empties it, and the JSON text follows piece by
    piece. A persistence step cut short before its first action leaves
    the old file; cut short later, it leaves the beginning of the new
    text written so far, and as long as a piece is missing the next run
    cannot decode the file and starts from an empty ledger; once every
    piece is written the file holds the new ledger, and so does it when
    the step runs to its end. *)
Theorem ledger_written_in_place (k : nat) (log_file : option file_text)
    (processed_files : gmap string string) :
  save_interrupted k log_file processed_files
  = match k with
    | 0 => log_file
    | S n => Some (firstn n (json_iterencode processed_files))
    end /\
  load_processed_files_log (save_interrupted (S k) log_file processed_files)
  = (if (k <? length (json_iterencode processed_files))%nat
     then (∅, [WarningLedgerNotDecoded])
     else (processed_files, [])) /\
  load_processed_files_log (save_processed_files_log log_file processed_files)
  = (processed_files, []).
Proof.
  split; [apply save_cut |]. split; [| apply load_after_save].
  rewrite save_cut. unfold load_processed_files_log.
  destruct (Nat.ltb_spec k (length (json_iterencode processed_files))) as [Hlt | Hge].
  - by rewrite json_load_cut.
  - rewrite firstn_all2 by done. by rewrite json_roundtrip.
Qed.

(** C5, as stated, fails: cut short right after the file is opened, the
    persistence step leaves an empty ledger file, which is neither the
    old ledger nor the new one. *)
Lemma ledger_write_not_atomic :
  ~ (forall k log_file processed_files,
       save_interrupted k log_file processed_files = log_file \/
       save_interrupted k log_file processed_files
       = Some (json_iterencode processed_files)).
Proof.
  intros H.
  destruct (H 1 (Some (json_iterencode {[url_A := isoformat stamp_A]}))
              {[url_A := isoformat stamp_A]}) as [E | E];
    vm_compute in E; discriminate.
Qed.


(** ** The run *)

Section Run.

Variable ctx : ClientContext.

Lemma classify_eqb ledger url t recorded :
  ledger !! url = Some recorded ->
  classify ledger url t = if String.eqb recorded t then Unchanged else Modified.
Proof.
  intros H. unfold classify. rewrite H.
  destruct (String.eqb_spec recorded t).
  - by rewrite bool_decide_eq_true_2.
  - by rewrite bool_decide_eq_false_2.
Qed.

(** The part of a round after the file is selected, against the
    reference notions. *)
Lemma process_selected_effect ledger st url t msg :
  died st = false ->
  time_last_modified ctx url = Some t ->
  classify ledger url (isoformat t) <> Unchanged ->
  process_selected ctx (say (say st [CallTimeLastModified url]) [msg]) url (isoformat t)
  = match extracted ctx ledger url with
    | Some (t', file_data) =>
        if raised (clean_and_filter_data file_data)
        then mkLoop (data_to_append st) (updated_processed_files_log st)
               (out st ++ CallTimeLastModified url :: msg :: processing_events ctx url)
               true
        else mkLoop (pd.concat (data_to_append st)
                       (returned (clean_and_filter_data file_data)))
               (<[url := t']> (updated_processed_files_log st))
               (out st ++ CallTimeLastModified url :: msg :: processing_events ctx url)
               false
    | None =>
        mkLoop (data_to_append st) (updated_processed_files_log st)
          (out st ++ CallTimeLastModified url :: msg :: processing_events ctx url)
          false
    end.
Proof.
  intros Hd Ht Hc. unfold extracted, processing_events. rewrite Ht.
  cbn [mbind option_bind].
  assert (match classify ledger url (isoformat t) with
          | Unchanged => None
          | _ => open_binary ctx url ≫= (fun file_content =>
                   if pd.empty (fst (process_excel_file file_content)) then None
                   else Some (isoformat t, fst (process_excel_file file_content)))
          end
          = open_binary ctx url ≫= (fun file_content =>
              if pd.empty (fst (process_excel_file file_content)) then None
              else Some (isoformat t, fst (process_excel_file file_content)))) as ->.
  { by destruct (classify ledger url (isoformat t)). }
  unfold process_selected, read_excel_from_sharepoint.
  destruct (open_binary ctx url) as [c|]; cbn [mbind option_bind].
  - cbn [say data_to_append updated_processed_files_log out died].
    destruct (process_excel_file c) as [fd evs]; cbn [fst snd].
    destruct (pd.empty fd); cbn [negb].
    + unfold say. cbn [data_to_append updated_processed_files_log out died].
      rewrite Hd, <- !app_assoc. done.
    + destruct (raised (clean_and_filter_data fd));
        cbn [data_to_append updated_processed_files_log out died];
        rewrite ?Hd, <- !app_assoc; done.
  - unfold say. cbn [data_to_append updated_processed_files_log out died].
    rewrite Hd, <- !app_assoc. done.
Qed.

Lemma visit_file_dead ledger st url : died st = true -> visit_file ctx ledger st url = st.
Proof. intros H. unfold visit_file. by rewrite H. Qed.

(** One round, against the reference notions. *)
Lemma visit_file_effect ledger st url :
  died st = false ->
  visit_file ctx ledger st url = after_round ctx ledger st url.
Proof.
  intros Hd. unfold visit_file, after_round, round_events. rewrite Hd.
  unfold get_sharepoint_file_modified_time.
  destruct (time_last_modified ctx url) as [t|] eqn:Ht.
  2:{ unfold extracted. rewrite Ht. cbn [mbind option_bind]. unfold say.
      cbn [data_to_append updated_processed_files_log out died].
      rewrite Hd, <- !app_assoc. done. }
  destruct (ledger !! url) as [recorded|] eqn:Hl.
  - pose proof (classify_eqb _ _ (isoformat t) _ Hl) as Hc.
    destruct (String.eqb recorded (isoformat t)).
    + rewrite Hc. unfold extracted. rewrite Ht. cbn [mbind option_bind]. rewrite Hc.
      unfold say. cbn [data_to_append updated_processed_files_log out died].
      rewrite Hd, <- !app_assoc. done.
    + rewrite (process_selected_effect ledger) by (done || congruence).
      rewrite Hc. done.
  - assert (classify ledger url (isoformat t) = New) as Hc
      by (unfold classify; by rewrite Hl).
    rewrite (process_selected_effect ledger) by (done || congruence).
    rewrite Hc. done.
Qed.

Lemma after_round_died ledger st url :
  died (after_round ctx ledger st url) = round_raises ctx ledger url.
Proof.
  unfold after_round, round_raises.
  destruct (extracted ctx ledger url) as [[t fd]|]; [| done].
  by destruct (raised (clean_and_filter_data fd)).
Qed.

Lemma after_round_out ledger st url :
  out (after_round ctx ledger st url) = out st ++ round_events ctx ledger url.
Proof.
  unfold after_round.
  destruct (extracted ctx ledger url) as [[t fd]|]; [| done].
  by destruct (raised (clean_and_filter_data fd)).
Qed.

Lemma after_round_updated ledger st url :
  updated_processed_files_log (after_round ctx ledger st url)
  = if round_raises ctx ledger url then updated_processed_files_log st
    else match extracted ctx ledger url with
         | Some (t, _) => <[url := t]> (updated_processed_files_log st)
         | None => updated_processed_files_log st
         end.
Proof.
  unfold after_round, round_raises.
  destruct (extracted ctx ledger url) as [[t fd]|]; [| done].
  by destruct (raised (clean_and_filter_data fd)).
Qed.

Lemma after_round_data ledger st url :
  data_to_append (after_round ctx ledger st url)
  = if round_raises ctx ledger url then data_to_append st
    else match extracted ctx ledger url with
         | Some (_, file_data) =>
             pd.concat (data_to_append st) (returned (clean_and_filter_data file_data))
         | None => data_to_append st
         end.
Proof.
  unfold after_round, round_raises.
  destruct (extracted ctx ledger url) as [[t fd]|]; [| done].
  by destruct (raised (clean_and_filter_data fd)).
Qed.

Lemma visit_events_round ledger url :
  visit_events ctx ledger url = round_events ctx ledger url.
Proof.
  unfold visit_events. rewrite visit_file_effect by done.
  by rewrite after_round_out.
Qed.

Lemma visit_all_cons ledger url files st :
  visit_all ctx ledger (url :: files) st
  = visit_all ctx ledger files (visit_file ctx ledger st url).
Proof. done. Qed.

Lemma visit_all_dead ledger files : forall st,
  died st = true -> visit_all ctx ledger files st = st.
Proof.
  induction files as [|url files IH]; intros st Hd; [done |].
  rewrite visit_all_cons, visit_file_dead by done. by apply IH.
Qed.

(** The loop, round after round, until a round raises. *)
Lemma visit_all_step ledger url files st :
  died st = false ->
  visit_all ctx ledger (url :: files) st
  = if round_raises ctx ledger url then after_round ctx ledger st url
    else visit_all ctx ledger files (after_round ctx ledger st url).
Proof.
  intros Hd. rewrite visit_all_cons, visit_file_effect by done.
  destruct (round_raises ctx ledger url) eqn:Hr; [| done].
  apply visit_all_dead. by rewrite after_round_died.
Qed.

Lemma visit_all_out ledger files : forall st,
  died st = false ->
  out (visit_all ctx ledger files st)
  = out st ++ flat_map (round_events ctx ledger)
                (started_rounds (round_raises ctx ledger) files).
Proof.
  induction files as [|url files IH]; intros st Hd.
  - simpl. by rewrite app_nil_r.
  - rewrite visit_all_step by done. cbn [started_rounds flat_map].
    destruct (round_raises ctx ledger url) eqn:Hr.
    + by rewrite after_round_out, app_nil_r.
    + rewrite IH by (by rewrite after_round_died).
      by rewrite after_round_out, <- app_assoc.
Qed.

Lemma visit_all_died ledger files : forall st,
  died st = false ->
  died (visit_all ctx ledger files st) = existsb (round_raises ctx ledger) files.
Proof.
  induction files as [|url files IH]; intros st Hd; [done |].
  rewrite visit_all_step by done. cbn [existsb].
  destruct (round_raises ctx ledger url) eqn:Hr.
  - by rewrite after_round_died.
  - by rewrite IH by (by rewrite after_round_died).
Qed.

Lemma completed_rounds_all raises files :
  existsb raises files = false -> completed_rounds raises files = files.
Proof.
  induction files as [|f files IH]; [done |]. cbn [existsb completed_rounds].
  destruct (raises f); [done |]. intros H. f_equal. by apply IH.
Qed.

Lemma started_rounds_all raises files :
  existsb raises files = false -> started_rounds raises files = files.
Proof.
  induction files as [|f files IH]; [done |]. cbn [existsb started_rounds].
  destruct (raises f); [done |]. intros H. f_equal. by apply IH.
Qed.

Lemma completed_rounds_quiet raises files f :
  f ∈ completed_rounds raises files -> raises f = false.
Proof.
  induction files as [|g files IH]; cbn [completed_rounds].
  - by intros ?%elem_of_nil.
  - destruct (raises g) eqn:Hg; [by intros ?%elem_of_nil |].
    intros [-> | ?]%elem_of_cons; auto.
Qed.

Lemma completed_rounds_listed raises files f :
  f ∈ completed_rounds raises files -> f ∈ files.
Proof.
  induction files as [|g files IH]; cbn [completed_rounds]; [done |].
  destruct (raises g); [by intros ?%elem_of_nil |].
  intros [-> | ?]%elem_of_cons; [apply list_elem_of_here |].
  apply list_elem_of_further. auto.
Qed.

Lemma visit_all_updated ledger files url : forall st,
  died st = false ->
  updated_processed_files_log (visit_all ctx ledger files st) !! url
  = if decide (url ∈ completed_rounds (round_raises ctx ledger) files)
    then match extracted ctx ledger url with
         | Some (t, _) => Some t
         | None => updated_processed_files_log st !! url
         end
    else updated_processed_files_log st !! url.
Proof.
  induction files as [|u files IH]; intros st Hd.
  - cbn [completed_rounds]. unfold visit_all; cbn [fold_left].
    by rewrite decide_False by apply not_elem_of_nil.
  - rewrite visit_all_step by done. cbn [completed_rounds].
    destruct (round_raises ctx ledger u) eqn:Hr.
    + rewrite after_round_updated, Hr.
      by rewrite decide_False by apply not_elem_of_nil.
    + rewrite IH by (by rewrite after_round_died).
      rewrite after_round_updated, Hr.
      destruct (decide (u = url)) as [-> | Hne].
      * rewrite (decide_True (P := url ∈ url :: _)) by apply list_elem_of_here.
        destruct (extracted ctx ledger url) as [[t fd]|]; [| by destruct (decide _)].
        rewrite lookup_insert_eq. by destruct (decide _).
      * assert (match extracted ctx ledger u with
                | Some (t, _) => <[u := t]> (updated_processed_files_log st)
                | None => updated_processed_files_log st
                end !! url = updated_processed_files_log st !! url) as ->.
        { destruct (extracted ctx ledger u) as [[t fd]|]; [| done].
          by rewrite lookup_insert_ne. }
        destruct (decide (url ∈ completed_rounds _ files)) as [Hin | Hnin].
        -- by rewrite decide_True by (by apply list_elem_of_further).
        -- rewrite decide_False; [done |].
           intros [? | ?]%elem_of_cons; congruence.
Qed.

Lemma visit_all_nothing ledger files : forall st,
  (forall url, url ∈ files -> extracted ctx ledger url = None) ->
  data_to_append (visit_all ctx ledger files st) = data_to_append st /\
  updated_processed_files_log (visit_all ctx ledger files st)
  = updated_processed_files_log st /\
  died (visit_all ctx ledger files st) = died st.
Proof.
  induction files as [|u files IH]; intros st Hnone; [done |].
  rewrite visit_all_cons.
  destruct (IH (visit_file ctx ledger st u)) as (-> & -> & ->).
  { intros url Hin. apply Hnone. by apply list_elem_of_further. }
  destruct (died st) eqn:Hd; [by rewrite visit_file_dead |].
  rewrite visit_file_effect by done. unfold after_round.
  by rewrite (Hnone u) by apply list_elem_of_here.
Qed.

Lemma visit_all_without ledger url files : forall st,
  extracted ctx ledger url = None ->
  data_to_append (visit_all ctx ledger files st)
  = data_to_append
      (visit_all ctx ledger (List.filter (fun u => negb (String.eqb u url)) files) st) /\
  updated_processed_files_log (visit_all ctx ledger files st)
  = updated_processed_files_log
      (visit_all ctx ledger (List.filter (fun u => negb (String.eqb u url)) files) st).
Proof.
  intros st Hnone. revert st.
  assert (forall files st st',
            data_to_append st = data_to_append st' ->
            updated_processed_files_log st = updated_processed_files_log st' ->
            died st = died st' ->
            data_to_append (visit_all ctx ledger files st)
            = data_to_append (visit_all ctx ledger files st') /\
            updated_processed_files_log (visit_all ctx ledger files st)
            = updated_processed_files_log (visit_all ctx ledger files st')) as Hcongr.
  { clear. intros files. induction files as [|u files IH]; intros st st' Hda Hu Hd;
      [done |].
    rewrite !visit_all_cons.
    destruct (died st) eqn:Hds.
    - rewrite !visit_file_dead by congruence. by apply IH; [| | congruence].
    - rewrite !visit_file_effect by congruence.
      apply IH; rewrite ?after_round_data, ?after_round_updated, ?after_round_died;
        by rewrite ?Hda, ?Hu. }
  induction files as [|u files IH]; intros st; [done |].
  rewrite visit_all_cons. cbn [List.filter].
  destruct (String.eqb_spec u url) as [-> | Hne]; cbn [negb].
  - destruct (IH (visit_file ctx ledger st url)) as [-> ->].
    destruct (died st) eqn:Hd; [by rewrite visit_file_dead |].
    apply Hcongr; rewrite visit_file_effect by done; unfold after_round;
      by rewrite Hnone.
  - rewrite visit_all_cons. apply IH.
Qed.

Lemma clean_no_remote_call df u :
  ~ In (CallOpenBinary u) (printed (clean_and_filter_data df)).
Proof.
  unfold clean_and_filter_data. cbn [printed]. rewrite !in_app_iff.
  destruct (key_columns_exist _), (stage4_raises _); simpl; intuition discriminate.
Qed.

(** A download is attempted in a round exactly for the file of that
    round, and only when it is New or Modified. *)
Lemma open_binary_event ledger url u :
  In (CallOpenBinary u) (round_events ctx ledger url) <->
  u = url /\ exists t, time_last_modified ctx url = Some t /\
                       classify ledger url (isoformat t) <> Unchanged.
Proof.
  unfold round_events.
  destruct (time_last_modified ctx url) as [t|].
  2:{ simpl. split; [intuition discriminate | by intros (_ & ? & ? & _)]. }
  transitivity (u = url /\ classify ledger url (isoformat t) <> Unchanged);
    [| split; [intros [? ?]; eauto | intros (? & t' & [= <-] & ?); done]].
  assert (In (CallOpenBinary u) (processing_events ctx url) <-> u = url) as Hp.
  { unfold processing_events. cbn [In].
    destruct (open_binary ctx url) as [c|].
    - pose proof (process_excel_file_no_remote_call c u) as Hc.
      pose proof (clean_no_remote_call (fst (process_excel_file c)) u) as Hcl.
      rewrite in_app_iff.
      destruct (pd.empty _); cbn [In]; intuition congruence.
    - cbn [In]. intuition congruence. }
  destruct (classify ledger url (isoformat t)); cbn [In]; rewrite ?Hp;
    intuition congruence.
Qed.

Lemma extracted_lookup ledger ledger' url :
  ledger !! url = ledger' !! url ->
  extracted ctx ledger url = extracted ctx ledger' url.
Proof. intros H. unfold extracted, classify. by rewrite H. Qed.

Lemma extracted_stamp ledger url t file_data :
  extracted ctx ledger url = Some (t, file_data) ->
  exists stamp, time_last_modified ctx url = Some stamp /\ t = isoformat stamp.
Proof.
  unfold extracted. destruct (time_last_modified ctx url) as [stamp|]; [| done].
  cbn [mbind option_bind]. intros H. exists stamp. split; [done |].
  destruct (classify _ _ _); [| | done];
    destruct (open_binary ctx url); cbn [mbind option_bind] in H; try done;
    destruct (pd.empty _); congruence.
Qed.

Lemma extracted_unchanged ledger url stamp :
  time_last_modified ctx url = Some stamp ->
  ledger !! url = Some (isoformat stamp) ->
  extracted ctx ledger url = None.
Proof.
  intros Ht Hl. unfold extracted, classify. rewrite Ht, Hl. cbn [mbind option_bind].
  by rewrite bool_decide_eq_true_2.
Qed.

End Run.

Section RunFacts.

Variable ctx : ClientContext.
Variable disk : Disk.

Let all_excel_files := list_excel_files_recursive (root_folder ctx).

Lemma run_loop_eq :
  run_loop ctx disk
  = visit_all ctx (ledger_on disk) all_excel_files
      (mkLoop pd.DataFrame_new (ledger_on disk)
         ([FoundFiles (length all_excel_files)]
          ++ snd (load_processed_files_log (ledger_file disk))) false).
Proof.
  unfold run_loop, ledger_on, all_excel_files.
  by destruct (load_processed_files_log (ledger_file disk)).
Qed.

Lemma load_no_remote_call u :
  ~ In (CallOpenBinary u) (snd (load_processed_files_log (ledger_file disk))).
Proof.
  unfold load_processed_files_log.
  destruct (ledger_file disk) as [text|]; [destruct (json_load text) |];
    simpl; intuition discriminate.
Qed.

Lemma run_loop_out :
  out (run_loop ctx disk)
  = [FoundFiles (length all_excel_files)]
    ++ snd (load_processed_files_log (ledger_file disk))
    ++ flat_map (round_events ctx (ledger_on disk))
         (started_rounds (round_raises ctx (ledger_on disk)) all_excel_files).
Proof. rewrite run_loop_eq, visit_all_out by done. cbn [out]. by rewrite <- app_assoc. Qed.

Lemma run_loop_died :
  died (run_loop ctx disk)
  = existsb (round_raises ctx (ledger_on disk)) all_excel_files.
Proof. by rewrite run_loop_eq, visit_all_died. Qed.

Lemma run_loop_open_binary u :
  In (CallOpenBinary u) (out (run_loop ctx disk)) <->
  u ∈ started_rounds (round_raises ctx (ledger_on disk)) all_excel_files /\
  exists t, time_last_modified ctx u = Some t /\
            classify (ledger_on disk) u (isoformat t) <> Unchanged.
Proof.
  rewrite run_loop_out, !in_app_iff, in_flat_map. cbn [In].
  pose proof (load_no_remote_call u) as Hload. split.
  - intros [[? | []] | [? | (f & Hf & Hev)]]; [discriminate | done |].
    apply open_binary_event in Hev as [-> Ht].
    split; [by apply list_elem_of_In | done].
  - intros [Hin Ht]. right. right. exists u.
    split; [by apply list_elem_of_In | by apply open_binary_event].
Qed.

Lemma run_loop_updated url :
  updated_processed_files_log (run_loop ctx disk) !! url
  = if decide (url ∈ completed_rounds (round_raises ctx (ledger_on disk)) all_excel_files)
    then match extracted ctx (ledger_on disk) url with
         | Some (t, _) => Some t
         | None => ledger_on disk !! url
         end
    else ledger_on disk !! url.
Proof. by rewrite run_loop_eq, visit_all_updated. Qed.

Lemma commit_open_binary io st u :
  In (CallOpenBinary u) (snd (commit io disk st)) <-> In (CallOpenBinary u) (out st).
Proof.
  unfold commit. destruct (pd.empty (data_to_append st)); cbn [negb];
    [| destruct (write_master _ _ _)]; cbn [snd];
    rewrite in_app_iff; cbn [In]; intuition discriminate.
Qed.

Lemma commit_ledger io st :
  ledger_file (fst (commit io disk st))
  = if pd.empty (data_to_append st)
    then Some (json_iterencode (updated_processed_files_log st))
    else match write_master io (master_file disk) (data_to_append st) with
         | Written _ => Some (json_iterencode (updated_processed_files_log st))
         | ReadRaised | WriteRaised => ledger_file disk
         end.
Proof.
  unfold commit. destruct (pd.empty (data_to_append st)); cbn [negb].
  - cbn [fst ledger_file]. apply save_complete.
  - destruct (write_master _ _ _); cbn [fst ledger_file]; [apply save_complete | done..].
Qed.

Lemma run_etl_ledger io :
  ledger_file (fst (run_etl (Some ctx) io disk))
  = if died (run_loop ctx disk) then ledger_file disk
    else if pd.empty (data_to_append (run_loop ctx disk))
    then Some (json_iterencode (updated_processed_files_log (run_loop ctx disk)))
    else match write_master io (master_file disk)
                 (data_to_append (run_loop ctx disk)) with
         | Written _ =>
             Some (json_iterencode (updated_processed_files_log (run_loop ctx disk)))
         | ReadRaised | WriteRaised => ledger_file disk
         end.
Proof.
  cbn [run_etl]. destruct (died (run_loop ctx disk)); [done |]. apply commit_ledger.
Qed.

Lemma run_etl_open_binary io u :
  In (CallOpenBinary u) (snd (run_etl (Some ctx) io disk))
  <-> In (CallOpenBinary u) (out (run_loop ctx disk)).
Proof.
  cbn [run_etl]. destruct (died (run_loop ctx disk)).
  - cbn [snd]. rewrite in_app_iff. cbn [In]. intuition discriminate.
  - apply commit_open_binary.
Qed.

End RunFacts.

Lemma ledger_on_saved master processed_files :
  ledger_on (mkDisk (Some (json_iterencode processed_files)) master) = processed_files.
Proof.
  unfold ledger_on, load_processed_files_log. cbn [ledger_file].
  by rewrite json_roundtrip.
Qed.

Lemma ledger_on_encoded d processed_files :
  ledger_file d = Some (json_iterencode processed_files) ->
  ledger_on d = processed_files.
Proof. destruct d as [lf mf]. cbn [ledger_file]. intros ->. apply ledger_on_saved. Qed.

Lemma ledger_on_file d d' : ledger_file d = ledger_file d' -> ledger_on d = ledger_on d'.
Proof. unfold ledger_on. by intros ->. Qed.

(** The ledger a run leaves on disk has, at any URL, the entry of the
    ledger in memory at the end of the loop or the entry found before. *)
Lemma run_etl_ledger_entry ctx io disk url :
  ledger_on (fst (run_etl (Some ctx) io disk)) !! url
  = updated_processed_files_log (run_loop ctx disk) !! url \/
  ledger_on (fst (run_etl (Some ctx) io disk)) = ledger_on disk.
Proof.
  pose proof (run_etl_ledger ctx disk io) as H.
  destruct (died (run_loop ctx disk));
    [right; by apply ledger_on_file |].
  destruct (pd.empty (data_to_append (run_loop ctx disk)));
    [left; by rewrite (ledger_on_encoded _ _ H) |].
  destruct (write_master _ _ _);
    [left; by rewrite (ledger_on_encoded _ _ H) | right; by apply ledger_on_file..].
Qed.



(** C1, as the code has it. When the loop is over, the in-memory ledger
    holds for a file the ISO text of its current modification time
    exactly when the round of the file was completed before any
    exception ended the run, the file was New or Modified, its content
    could be downloaded and extraction returned at least one row --
    whatever cleaning then left of these rows; every other file, in
    particular one whose extraction returned nothing, has the entry it
    had at the start of the run, or none. This is the ledger that the end
    of the run writes, when the run gets there and has no rows to append
    or updates the master workbook without an exception; otherwise the
    ledger file is left as it was. *)
Theorem ledger_update_rule (ctx : ClientContext) (io : LocalIO) (disk : Disk)
    (url : string) :
  let ledger := ledger_on disk in
  let files := list_excel_files_recursive (root_folder ctx) in
  updated_processed_files_log (run_loop ctx disk) !! url
  = (if decide (url ∈ completed_rounds (round_raises ctx ledger) files)
     then match extracted ctx ledger url with
          | Some (t, _) => Some t
          | None => ledger !! url
          end
     else ledger !! url) /\
  died (run_loop ctx disk) = existsb (round_raises ctx ledger) files /\
  ledger_file (fst (run_etl (Some ctx) io disk))
  = (if died (run_loop ctx disk) then ledger_file disk
     else if pd.empty (data_to_append (run_loop ctx disk))
     then Some (json_iterencode (updated_processed_files_log (run_loop ctx disk)))
     else match write_master io (master_file disk)
                  (data_to_append (run_loop ctx disk)) with
          | Written _ =>
              Some (json_iterencode (updated_processed_files_log (run_loop ctx disk)))
          | ReadRaised | WriteRaised => ledger_file disk
          end).
Proof.
  intros ledger files. split; [apply run_loop_updated |].
  split; [apply run_loop_died | apply run_etl_ledger].
Qed.

(** C1, as stated, fails: a new workbook that downloads and opens, but
    has no sheet named after a target, is not entered in the ledger. *)
Lemma ledger_not_updated_without_rows :
  ~ (forall ctx disk url t file_content,
       url ∈ list_excel_files_recursive (root_folder ctx) ->
       time_last_modified ctx url = Some t ->
       classify (ledger_on disk) url (isoformat t) <> Unchanged ->
       open_binary ctx url = Some file_content ->
       updated_processed_files_log (run_loop ctx disk) !! url = Some (isoformat t)).
Proof.
  intros H.
  specialize (H (ctx_one_file (Some stamp_A) (Some (Some wb_no_match)))
                disk_fresh url_A stamp_A (Some wb_no_match)).
  assert (@None string = Some (isoformat stamp_A)) as E; [| discriminate].
  rewrite <- H; [by vm_compute | vm_compute; constructor | reflexivity
                | vm_compute; discriminate | reflexivity].
Qed.

(** C9. A file whose modification time cannot be obtained is skipped: no
    download of it is attempted in the run; the loop ends with the same
    rows to append and the same ledger as a loop that never met the
    file; its entry in the in-memory ledger, and in the ledger found on
    disk after the run, is the one found on disk before the run (or is
    missing as before), so a later run meets the file in the same state. *)
Theorem unknown_timestamp_skips_file (ctx : ClientContext) (io : LocalIO)
    (disk : Disk) (url : string) :
  time_last_modified ctx url = None ->
  ~ In (CallOpenBinary url) (snd (run_etl (Some ctx) io disk)) /\
  (forall ledger files st,
     data_to_append (visit_all ctx ledger files st)
     = data_to_append
         (visit_all ctx ledger (List.filter (fun u => negb (String.eqb u url)) files) st) /\
     updated_processed_files_log (visit_all ctx ledger files st)
     = updated_processed_files_log
         (visit_all ctx ledger (List.filter (fun u => negb (String.eqb u url)) files) st)) /\
  updated_processed_files_log (run_loop ctx disk) !! url = ledger_on disk !! url /\
  ledger_on (fst (run_etl (Some ctx) io disk)) !! url = ledger_on disk !! url.
Proof.
  intros Ht.
  assert (forall ledger, extracted ctx ledger url = None) as Hnone.
  { intros ledger. unfold extracted. by rewrite Ht. }
  assert (updated_processed_files_log (run_loop ctx disk) !! url
          = ledger_on disk !! url) as Hmem.
  { rewrite run_loop_updated, Hnone. by destruct (decide _). }
  split; [| split; [| split]].
  - rewrite run_etl_open_binary, run_loop_open_binary.
    intros (_ & t & Ht' & _). congruence.
  - intros ledger files st. by apply visit_all_without.
  - done.
  - destruct (run_etl_ledger_entry ctx io disk url) as [-> | ->]; done.
Qed.

Lemma unknown_timestamp_skips_file_witness :
  ~ In (CallOpenBinary url_A)
      (snd (run_etl (Some (ctx_one_file None (Some (Some wb_batch)))) io_ok disk_fresh)).
Proof.
  apply (unknown_timestamp_skips_file
           (ctx_one_file None (Some (Some wb_batch))) io_ok disk_fresh url_A).
  reflexivity.
Defined.

(** C3. When there are rows to append and writing the master workbook
    raises, the run ends without touching the ledger file: its text is
    the text it had before the run, so the next run loads the same
    ledger, and the failure is reported (when the loop itself was ended
    by an exception, the write is never attempted and it is that
    exception which is reported). *)
Theorem failed_master_write_keeps_ledger (ctx : ClientContext) (io : LocalIO)
    (disk : Disk) :
  pd.empty (data_to_append (run_loop ctx disk)) = false ->
  to_excel_raises io = true ->
  ledger_file (fst (run_etl (Some ctx) io disk)) = ledger_file disk /\
  ledger_on (fst (run_etl (Some ctx) io disk)) = ledger_on disk /\
  (if died (run_loop ctx disk)
   then In UncaughtAttributeError (snd (run_etl (Some ctx) io disk))
   else In ErrorWritingMaster (snd (run_etl (Some ctx) io disk))).
Proof.
  intros Hdata Hraise.
  assert (ledger_file (fst (run_etl (Some ctx) io disk)) = ledger_file disk) as Hl.
  { rewrite run_etl_ledger, Hdata. destruct (died _); [done |].
    unfold write_master. rewrite Hraise.
    by destruct (match master_file disk with Some _ => _ | None => _ end). }
  split; [done |]. split; [by apply ledger_on_file |].
  cbn [run_etl]. destruct (died (run_loop ctx disk)).
  - cbn [snd]. rewrite in_app_iff. right. by left.
  - unfold commit. rewrite Hdata. cbn [negb].
    destruct (write_master _ _ _) eqn:Hw; cbn [snd]; rewrite in_app_iff.
    + unfold write_master in Hw. rewrite Hraise in Hw.
      by destruct (match master_file disk with Some _ => _ | None => _ end).
    + right. simpl. auto.
    + right. simpl. auto.
Qed.

Lemma failed_master_write_keeps_ledger_witness :
  ledger_file (fst (run_etl (Some (ctx_one_file (Some stamp_A) (Some (Some wb_batch))))
                            io_write_fails disk_fresh))
  = ledger_file disk_fresh.
Proof.
  refine (proj1 (failed_master_write_keeps_ledger
                   (ctx_one_file (Some stamp_A) (Some (Some wb_batch)))
                   io_write_fails disk_fresh _ _)).
  - vm_compute. reflexivity.
  - reflexivity.
Defined.

Section SameAnswers.

Variables ctx1 ctx2 : ClientContext.

Hypothesis same_listing :
  list_excel_files_recursive (root_folder ctx2)
  = list_excel_files_recursive (root_folder ctx1).

Hypothesis same_calls :
  forall url, url ∈ list_excel_files_recursive (root_folder ctx1) ->
              time_last_modified ctx2 url = time_last_modified ctx1 url /\
              open_binary ctx2 url = open_binary ctx1 url.

Lemma same_round ledger st url :
  url ∈ list_excel_files_recursive (root_folder ctx1) ->
  visit_file ctx2 ledger st url = visit_file ctx1 ledger st url.
Proof.
  intros Hin. destruct (same_calls url Hin) as [Ht Ho].
  destruct (died st) eqn:Hd; [by rewrite !visit_file_dead |].
  rewrite !visit_file_effect by done.
  unfold after_round, round_events, extracted, processing_events.
  by rewrite Ht, Ho.
Qed.

Lemma same_loop ledger files : forall st,
  (forall url, url ∈ files -> url ∈ list_excel_files_recursive (root_folder ctx1)) ->
  visit_all ctx2 ledger files st = visit_all ctx1 ledger files st.
Proof.
  induction files as [|u files IH]; intros st Hin; [done |].
  rewrite !visit_all_cons, same_round by (apply Hin, list_elem_of_here).
  apply IH. intros url Hu. apply Hin. by apply list_elem_of_further.
Qed.

Lemma same_run io disk : run_etl (Some ctx2) io disk = run_etl (Some ctx1) io disk.
Proof.
  assert (run_loop ctx2 disk = run_loop ctx1 disk) as Hloop.
  { rewrite !run_loop_eq, same_listing. by apply same_loop. }
  cbn [run_etl]. by rewrite Hloop.
Qed.

End SameAnswers.

Section SecondRun.

Variable ctx : ClientContext.
Variable disk : Disk.
Variables io1 io2 : LocalIO.

Let disk1 := fst (run_etl (Some ctx) io1 disk).

Lemma rerun_after_death :
  died (run_loop ctx disk) = true ->
  disk1 = disk /\ fst (run_etl (Some ctx) io2 disk1) = disk1 /\
  died (run_loop ctx disk1) = true.
Proof.
  intros Hd. assert (disk1 = disk) as ->.
  { unfold disk1. cbn [run_etl]. by rewrite Hd. }
  repeat split; [| done]. cbn [run_etl]. by rewrite Hd.
Qed.

(** A run that starts from a disk on which the ledger of a first run is
    saved in full finds nothing to do, whatever the master file holds. *)
Lemma rerun_after_save (saved : Disk) :
  died (run_loop ctx disk) = false ->
  ledger_file saved
  = save_processed_files_log (ledger_file disk)
      (updated_processed_files_log (run_loop ctx disk)) ->
  data_to_append (run_loop ctx saved) = pd.DataFrame_new /\
  died (run_loop ctx saved) = false /\
  fst (run_etl (Some ctx) io2 saved) = saved.
Proof.
  intros Hd Hl1. rewrite save_complete in Hl1.
  set (st1 := run_loop ctx disk) in *.
  pose proof (ledger_on_encoded _ _ Hl1) as Hon.
  assert (existsb (round_raises ctx (ledger_on disk))
            (list_excel_files_recursive (root_folder ctx)) = false) as Hquiet.
  { rewrite <- run_loop_died. done. }
  assert (forall url, url ∈ list_excel_files_recursive (root_folder ctx) ->
                      extracted ctx (ledger_on saved) url = None) as Hnone.
  { intros url Hin. rewrite Hon.
    pose proof (run_loop_updated ctx disk url) as Hu. fold st1 in Hu.
    rewrite completed_rounds_all, decide_True in Hu by done.
    destruct (extracted ctx (ledger_on disk) url) as [[t fd]|] eqn:He.
    - destruct (extracted_stamp _ _ _ _ _ He) as (stamp & Hs & ->).
      by apply (extracted_unchanged ctx _ _ stamp).
    - rewrite <- He. by apply extracted_lookup. }
  assert (data_to_append (run_loop ctx saved) = pd.DataFrame_new /\
          updated_processed_files_log (run_loop ctx saved) = ledger_on saved /\
          died (run_loop ctx saved) = false)
    as (Hdata & Hupd & Hdied).
  { rewrite run_loop_eq. by apply visit_all_nothing. }
  repeat split; try done.
  cbn [run_etl]. rewrite Hdied. unfold commit. rewrite Hdata. cbn [negb pd.empty fst].
  rewrite save_complete, Hupd, Hon.
  destruct saved as [lf mf]. cbn [ledger_file master_file] in *. by rewrite Hl1.
Qed.

Lemma run_saves_ledger :
  died (run_loop ctx disk) = false ->
  master_io_works io1 disk ->
  ledger_file disk1
  = save_processed_files_log (ledger_file disk)
      (updated_processed_files_log (run_loop ctx disk)).
Proof.
  intros Hd [Hwrite Hread]. unfold disk1.
  rewrite save_complete, run_etl_ledger, Hd.
  destruct (pd.empty (data_to_append (run_loop ctx disk))); [done |].
  unfold write_master. rewrite Hwrite.
  destruct (master_file disk) as [written|] eqn:Hm; [| done].
  destruct (Hread written eq_refl) as [existing ->]. done.
Qed.

End SecondRun.

(** C4, as the code has it. When the store answers the calls of the
    second run as it answered those of the first, and reading and writing
    the master workbook cannot raise in the first run, the second run
    leaves the master file and the ledger file as the first run left
    them: it ends its loop with nothing to append, or, when cleaning
    ended the first run with an exception, ends in the same way. What the
    second run needs of the first is its ledger, saved in full: started
    from any disk that holds it, whatever the master file on it, the
    second run gathers nothing and leaves the disk as it is. *)
Theorem second_run_appends_nothing (first second : option ClientContext)
    (io1 io2 : LocalIO) (disk : Disk) :
  same_answers first second ->
  master_io_works io1 disk ->
  let disk1 := fst (run_etl first io1 disk) in
  let disk2 := fst (run_etl second io2 disk1) in
  master_file disk2 = master_file disk1 /\
  ledger_file disk2 = ledger_file disk1 /\
  match first, second with
  | Some ctx1, Some ctx2 =>
      (if died (run_loop ctx1 disk) then died (run_loop ctx2 disk1) = true
       else data_to_append (run_loop ctx2 disk1) = pd.DataFrame_new) /\
      (forall saved : Disk,
         died (run_loop ctx1 disk) = false ->
         ledger_file saved
         = save_processed_files_log (ledger_file disk)
             (updated_processed_files_log (run_loop ctx1 disk)) ->
         data_to_append (run_loop ctx2 saved) = pd.DataFrame_new /\
         fst (run_etl (Some ctx2) io2 saved) = saved)
  | _, _ => True
  end.
Proof.
  intros Hsame Hio disk1 disk2. subst disk1 disk2.
  destruct first as [ctx1|], second as [ctx2|]; try done.
  destruct Hsame as [Hlist Hcalls].
  assert (forall d, run_loop ctx2 d = run_loop ctx1 d) as Hloop.
  { intros d. rewrite !run_loop_eq, Hlist. by apply same_loop. }
  rewrite (same_run ctx1 ctx2 Hlist Hcalls), !Hloop.
  assert (forall saved : Disk,
            died (run_loop ctx1 disk) = false ->
            ledger_file saved
            = save_processed_files_log (ledger_file disk)
                (updated_processed_files_log (run_loop ctx1 disk)) ->
            data_to_append (run_loop ctx2 saved) = pd.DataFrame_new /\
            fst (run_etl (Some ctx2) io2 saved) = saved) as Hsaved.
  { intros saved Hd Hl. rewrite (same_run ctx1 ctx2 Hlist Hcalls), Hloop.
    by destruct (rerun_after_save ctx1 disk io2 saved Hd Hl) as (? & _ & ?). }
  destruct (died (run_loop ctx1 disk)) eqn:Hd.
  - destruct (rerun_after_death ctx1 disk io1 io2 Hd) as (_ & -> & ->). done.
  - pose proof (run_saves_ledger ctx1 disk io1 Hd Hio) as Hl.
    destruct (rerun_after_save ctx1 disk io2 _ Hd Hl) as (-> & _ & ->). done.
Qed.

Lemma second_run_appends_nothing_witness :
  let ctx := ctx_one_file (Some stamp_A) (Some (Some wb_batch)) in
  let disk1 := fst (run_etl (Some ctx) io_ok disk_fresh) in
  master_file (fst (run_etl (Some ctx) io_ok disk1)) = master_file disk1.
Proof.
  intros ctx disk1.
  refine (proj1 (second_run_appends_nothing (Some ctx) (Some ctx) io_ok io_ok
                   disk_fresh _ _)).
  - split; [reflexivity |]. intros url _. split; reflexivity.
  - split; [reflexivity |]. intros written H. discriminate H.
Defined.

(** C4, as stated, fails: when writing the master workbook raises in the
    first run, nothing is recorded, and the second run appends the row. *)
Lemma second_run_appends_after_failed_write :
  ~ (forall connection io1 io2 disk,
       master_len (fst (run_etl connection io2 (fst (run_etl connection io1 disk))))
       = master_len (fst (run_etl connection io1 disk))).
Proof.
  intros H.
  specialize (H (Some (ctx_one_file (Some stamp_A) (Some (Some wb_batch))))
                io_write_fails io_ok disk_fresh).
  vm_compute in H. discriminate.
Qed.

(** ** Worked examples on the sample store *)

Example strip_trims_both_ends : PyStr.strip "  S1 " = "S1".
Proof. reflexivity. Qed.

Example sheet_found_whatever_the_case :
  find_sheet "Batch Sheet" (sheet_names wb_batch) = Some "BATCH SHEET (2)".
Proof. reflexivity. Qed.

Example cleaning_lab_results :
  printed (clean_and_filter_data df_lab_results)
  = [InitialRows 3; RowsAfterBlank 3; RowsAfterQC 2;
     RowsAfterPartial ["Sample ID"; "Result"] 1; FinalRows 1].
Proof. vm_compute. reflexivity. Qed.

Example first_run_records_the_file :
  let disk1 := fst (run_etl (Some (ctx_one_file (Some stamp_A) (Some (Some wb_batch))))
                            io_ok disk_fresh) in
  master_len disk1 = 1 /\
  ledger_file disk1 = Some [JOpen; JPair url_A "2024-01-01T00:00:00+00:00"; JClose].
Proof. vm_compute. split; reflexivity. Qed.

Example second_run_skips_the_file :
  let ctx := ctx_one_file (Some stamp_A) (Some (Some wb_batch)) in
  snd (run_etl (Some ctx) io_ok (fst (run_etl (Some ctx) io_ok disk_fresh)))
  = [FoundFiles 1; CallTimeLastModified url_A; SkippingNotModified url_A;
     NoNewData; LedgerUpdated].
Proof. vm_compute. reflexivity. Qed.

Example system_folders_are_not_walked :
  list_excel_files_recursive
    (Listing [("a.XLSX", "/a.XLSX"); ("notes.txt", "/notes.txt")]
             [("Forms", Listing [("f.xlsx", "/Forms/f.xlsx")] []);
              ("_private", Listing [("p.xls", "/_private/p.xls")] []);
              ("sub", Listing [("s.xls", "/sub/s.xls")] [("lost", Unlistable)])])
  = ["/a.XLSX"; "/sub/s.xls"].
Proof. reflexivity. Qed.

(** Once the row with the QC marker is gone, the object column [Note]
    holds a number and no string: the [.str] accessor raises, and the
    last count is never printed. *)
Example cleaning_raises_when_only_numbers_are_left :
  raised (clean_and_filter_data df_number_left) = true /\
  printed (clean_and_filter_data df_number_left)
  = [InitialRows 2; RowsAfterBlank 2; RowsAfterQC 1;
     WarningKeyColumnsNotFound ["Sample ID"; "Result"]].
Proof. vm_compute. split; reflexivity. Qed.

(** The exception of cleaning ends the run in the round of the first
    workbook: the second workbook is never looked at and neither local
    file is written. *)
Example run_ends_on_the_exception_of_cleaning :
  run_etl (Some ctx_two_files) io_ok disk_fresh
  = (disk_fresh,
     [FoundFiles 2; CallTimeLastModified url_A; ProcessingNew url_A;
      CallOpenBinary url_A; ProcessingSheet "Batch Sheet";
      WarningSheetNotFound "Product Info"; InitialRows 2; RowsAfterBlank 2;
      RowsAfterQC 1; WarningKeyColumnsNotFound ["Sample ID"; "Result"];
      UncaughtAttributeError]).
Proof. vm_compute. reflexivity. Qed.

(** A download that fails in the first run and succeeds in the second:
    the store has not changed, and the second run appends the row. *)
Example second_run_appends_after_failed_download :
  let first := ctx_one_file (Some stamp_A) None in
  let second := ctx_one_file (Some stamp_A) (Some (Some wb_batch)) in
  let disk1 := fst (run_etl (Some first) io_ok disk_fresh) in
  master_len disk1 = 0 /\ master_len (fst (run_etl (Some second) io_ok disk1)) = 1.
Proof. vm_compute. split; reflexivity. Qed.

(** A first run whose ledger save is cut short right after the file is
    opened, the master workbook being written already: the next run finds
    a ledger it cannot decode and appends the row a second time. *)
Example second_run_appends_after_interrupted_save :
  let ctx := ctx_one_file (Some stamp_A) (Some (Some wb_batch)) in
  let disk1 :=
    mkDisk (save_interrupted 1 (ledger_file disk_fresh)
              (updated_processed_files_log (run_loop ctx disk_fresh)))
           (master_file (fst (run_etl (Some ctx) io_ok disk_fresh))) in
  ledger_file disk1 = Some [] /\ master_len disk1 = 1 /\
  master_len (fst (run_etl (Some ctx) io_ok disk1)) = 2.
Proof. vm_compute. repeat split; reflexivity. Qed.

(** * Further properties of the program *)

(** ** The walker *)

Section Walker.

Lemma rev_string_app a b :
  rev (list_ascii_of_string (a ++ b)%string)
  = rev (list_ascii_of_string b) ++ rev (list_ascii_of_string a).
Proof.
  induction a as [|c a IH]; simpl; [by rewrite app_nil_r |].
  by rewrite IH, app_assoc.
Qed.

Lemma string_of_list_app l1 l2 :
  string_of_list_ascii (l1 ++ l2)
  = (string_of_list_ascii l1 ++ string_of_list_ascii l2)%string.
Proof. induction l1 as [|c l1 IH]; simpl; [done | by rewrite IH]. Qed.

Lemma endswith_spec suffix s :
  endswith suffix s = true <-> exists stem, s = (stem ++ suffix)%string.
Proof.
  unfold endswith. rewrite startswith_spec. split.
  - intros [post H].
    apply (f_equal list_ascii_of_string) in H.
    rewrite list_ascii_of_string_of_list_ascii in H.
    apply (f_equal (@rev ascii)) in H. rewrite rev_involutive in H.
    exists (string_of_list_ascii (rev (list_ascii_of_string post))).
    rewrite <- (string_of_list_ascii_of_string s), H.
    rewrite <- (string_of_list_ascii_of_string suffix) at 2.
    rewrite <- string_of_list_app. f_equal.
    rewrite <- (rev_involutive (list_ascii_of_string suffix)) at 2.
    rewrite <- rev_app_distr. f_equal.
    rewrite <- (list_ascii_of_string_of_list_ascii (rev (list_ascii_of_string suffix))) at 2.
    clear. generalize (string_of_list_ascii (rev (list_ascii_of_string suffix))).
    intros a. induction a as [|c a IH]; simpl; [done | by rewrite IH].
  - intros [stem ->]. rewrite rev_string_app, string_of_list_app. eauto.
Qed.

Lemma is_excel_name_spec name :
  is_excel_name name = true <->
  exists stem, PyStr.lower name = (stem ++ ".xlsx")%string \/
               PyStr.lower name = (stem ++ ".xls")%string.
Proof.
  unfold is_excel_name. rewrite orb_true_iff, !endswith_spec. split.
  - intros [[stem H] | [stem H]]; exists stem; auto.
  - intros [stem [H | H]]; eauto.
Qed.

Lemma is_system_folder_spec name :
  is_system_folder name = false <->
  (forall rest, name <> ("_" ++ rest)%string) /\ name <> "Forms".
Proof.
  unfold is_system_folder. rewrite orb_false_iff. split.
  - intros [Hs He]. split.
    + intros rest ->.
      assert (PyStr.startswith "_" ("_" ++ rest) = true) as Ht
        by (apply startswith_spec; eauto).
      congruence.
    + intros ->. discriminate.
  - intros [Hs He]. split.
    + destruct (PyStr.startswith "_" name) eqn:E; [| done].
      apply startswith_spec in E as [post ->]. by destruct (Hs post).
    + by apply String.eqb_neq.
Qed.

End Walker.

(** X1. The walk returns exactly the URLs of the files it is meant to
    reach: files whose lowered name ends in [.xlsx] or [.xls], in the
    root or in sub-folders that can be listed and are not system folders
    (name starting with an underscore, or [Forms]). *)
Theorem walker_lists_exactly (folder : Folder) (url : string) :
  In url (list_excel_files_recursive folder) <-> listed folder url.
Proof.
  split.
  - revert url. induction folder as [|files folders IH] using Folder_tree_ind;
      intros url; [done |].
    cbn [list_excel_files_recursive]. rewrite in_app_iff, in_map_iff, in_flat_map.
    intros [([name u] & <- & Hin) | ([name sub] & Hin & Hsub)].
    + apply filter_In in Hin as [Hin Hx].
      apply (listed_here _ _ name); [done | by apply is_excel_name_spec].
    + cbn [fst snd] in Hsub.
      destruct (is_system_folder name) eqn:Hsys; [done |]. cbn [negb] in Hsub.
      apply is_system_folder_spec in Hsys as [Hs Hf].
      apply (listed_below _ _ name sub); [done.. |].
      rewrite List.Forall_forall in IH. by apply (IH (name, sub)).
  - induction 1 as [files folders name url Hin Hx
                   | files folders name sub url Hin Hs Hf _ IH];
      cbn [list_excel_files_recursive]; rewrite in_app_iff.
    + left. apply in_map_iff. exists (name, url). split; [done |].
      apply filter_In. split; [done |]. by apply is_excel_name_spec.
    + right. apply in_flat_map. exists (name, sub). split; [done |].
      cbn [fst snd].
      by rewrite (proj2 (is_system_folder_spec name) (conj Hs Hf)).
Qed.

(** X2. A sub-folder that cannot be listed, or that is a system folder
    whatever it holds, changes nothing to the result of the walk: the
    files found are those found without it. *)
Theorem walker_ignores_folder (files : list (string * string))
    (before after : list (string * Folder)) (name : string) (sub : Folder) :
  is_system_folder name = true \/ sub = Unlistable ->
  list_excel_files_recursive (Listing files (before ++ (name, sub) :: after))
  = list_excel_files_recursive (Listing files (before ++ after)).
Proof.
  intros H. cbn [list_excel_files_recursive]. f_equal.
  rewrite !flat_map_app. f_equal. cbn [flat_map fst snd].
  destruct H as [-> | ->]; [done |]. by destruct (is_system_folder name).
Qed.

Lemma walker_ignores_folder_witness :
  list_excel_files_recursive
    (Listing [("a.xlsx", "/a.xlsx")]
             ([("x", Listing [("b.xls", "/x/b.xls")] [])]
              ++ ("lost", Unlistable) :: []))
  = list_excel_files_recursive
      (Listing [("a.xlsx", "/a.xlsx")]
               ([("x", Listing [("b.xls", "/x/b.xls")] [])] ++ [])).
Proof.
  apply (walker_ignores_folder [("a.xlsx", "/a.xlsx")]
           [("x", Listing [("b.xls", "/x/b.xls")] [])] [] "lost" Unlistable).
  right. reflexivity.
Defined.

(** ** Extraction, continued *)

Section ExtractionColumns.

Lemma concat_columns_fst a b :
  map fst (pd.concat_columns a b)
  = map fst a
    ++ map fst (List.filter (fun c => negb (existsb (String.eqb (fst c)) (map fst a))) b).
Proof.
  unfold pd.concat_columns. rewrite map_app, map_map. f_equal.
  apply map_ext. intros [c d]. cbn [fst snd].
  destruct (pd.lookup_dtype b c); [destruct (bool_decide _) |]; done.
Qed.

Lemma concat_keeps_columns a b c :
  In c (pd.column_names a) \/ In c (pd.column_names b) ->
  In c (pd.column_names (pd.concat a b)).
Proof.
  unfold pd.column_names, pd.concat. cbn [columns].
  rewrite concat_columns_fst, in_app_iff. intros [Ha | Hb]; [by left |].
  destruct (existsb (String.eqb c) (map fst (columns a))) eqn:E.
  - left. apply existsb_exists in E as (x & Hx & Heq).
    apply String.eqb_eq in Heq. by subst.
  - right. apply in_map_iff in Hb as ([c' d] & <- & Hin).
    apply in_map_iff. exists (c', d). split; [done |].
    apply filter_In. split; [done |]. cbn [fst] in *. by rewrite E.
Qed.

Lemma set_column_has_column col v df :
  In col (pd.column_names (pd.set_column col v df)).
Proof.
  unfold pd.set_column, pd.column_names. cbn [columns].
  destruct (pd.has_column df col) eqn:E.
  - rewrite map_map. unfold pd.has_column in E.
    apply existsb_exists in E as (x & Hx & Heq). apply String.eqb_eq in Heq. subst x.
    unfold pd.column_names in Hx. apply in_map_iff in Hx as ([c d] & Hc & Hin).
    cbn [fst] in Hc. subst c. apply in_map_iff. exists (col, d).
    split; [| done]. cbn [fst]. by rewrite String.eqb_refl.
  - rewrite map_app, in_app_iff. right. simpl. auto.
Qed.

Lemma process_sheet_tagged_frame xls acc t :
  tagged_frame (fst acc) -> tagged_frame (fst (process_sheet xls acc t)).
Proof.
  destruct acc as [d evs]. unfold process_sheet. cbn [fst]. intros Hd.
  destruct (find_sheet t (sheet_names xls)) as [a|]; [| done].
  destruct (PyStr.truthy a); [| done].
  destruct (parse xls a default_header) as [df|]; [| done].
  cbn [fst]. right. apply concat_keeps_columns. right. apply set_column_has_column.
Qed.

Lemma process_sheets_tagged_frame xls ts : forall acc,
  tagged_frame (fst acc) -> tagged_frame (fst (fold_left (process_sheet xls) ts acc)).
Proof.
  induction ts as [|t ts IH]; intros acc Hacc; [done |].
  cbn [fold_left]. by apply IH, process_sheet_tagged_frame.
Qed.

Lemma process_excel_file_tagged_frame file_content :
  tagged_frame (fst (process_excel_file file_content)).
Proof.
  destruct file_content as [xls|]; [| by left].
  apply process_sheets_tagged_frame. by left.
Qed.

Lemma process_excel_file_cells xls :
  map cells (rows (fst (process_excel_file (Some xls))))
  = flat_map (tagged_cells xls) sheets_to_process.
Proof.
  unfold process_excel_file.
  destruct (process_sheets_fold xls sheets_to_process pd.DataFrame_new []
              sheets_to_process_nonempty) as (d' & -> & Hc & _). done.
Qed.

Lemma tagged_cells_source xls t m :
  In m (tagged_cells xls t) ->
  exists a, find_sheet t (sheet_names xls) = Some a /\
            m !! "_SourceSheet" = Some (VStr a).
Proof.
  unfold tagged_cells. destruct (find_sheet t (sheet_names xls)) as [a|]; [| done].
  destruct (parse xls a default_header) as [df|]; [| done].
  intros (r & <- & _)%in_map_iff. exists a. split; [done |]. apply lookup_insert_eq.
Qed.

Lemma extracted_row_source file_content r :
  In r (rows (fst (process_excel_file file_content))) ->
  exists xls t a,
    file_content = Some xls /\ In t sheets_to_process /\
    find_sheet t (sheet_names xls) = Some a /\
    cells r !! "_SourceSheet" = Some (VStr a).
Proof.
  destruct file_content as [xls|]; [| done]. intros Hr.
  apply (in_map cells) in Hr. rewrite process_excel_file_cells in Hr.
  apply in_flat_map in Hr as (t & Ht & Hm).
  apply tagged_cells_source in Hm as (a & Ha & Hl).
  by exists xls, t, a.
Qed.

Lemma extracted_frame_no_blank_row file_content :
  no_blank_row (fst (process_excel_file file_content)) = true.
Proof.
  unfold no_blank_row. apply forallb_forall. intros r Hr.
  destruct (extracted_row_source _ _ Hr) as (xls & t & a & _ & _ & _ & Hl).
  apply existsb_exists. exists "_SourceSheet". split.
  - destruct (process_excel_file_tagged_frame file_content) as [E | Hc]; [| done].
    rewrite E in Hr. done.
  - unfold pd.notna. by rewrite Hl.
Qed.

End ExtractionColumns.

(** X3. Every row that extraction returns carries, under [_SourceSheet],
    the name of a sheet of the workbook: the one chosen for one of the
    target names, which contains that target whatever the letter case;
    and [_SourceSheet] is a column of the frame. *)
Theorem extracted_rows_are_tagged (file_content : BytesIO) (r : Row) :
  In r (rows (fst (process_excel_file file_content))) ->
  exists xls t a,
    file_content = Some xls /\ In t sheets_to_process /\
    find_sheet t (sheet_names xls) = Some a /\
    In a (sheet_names xls) /\ PyStr.contains_ci t a = true /\
    cells r !! "_SourceSheet" = Some (VStr a) /\
    In "_SourceSheet" (pd.column_names (fst (process_excel_file file_content))).
Proof.
  intros Hr.
  destruct (extracted_row_source _ _ Hr) as (xls & t & a & -> & Ht & Ha & Hl).
  exists xls, t, a. repeat split; try done.
  - pose proof (find_sheet_first_match t (sheet_names xls)) as Hf.
    rewrite Ha in Hf. destruct Hf as (before & after & -> & _).
    apply in_app_iff. right. by left.
  - pose proof (find_sheet_first_match t (sheet_names xls)) as Hf.
    rewrite Ha in Hf. by destruct Hf as (_ & _ & _ & Hci & _).
  - destruct (process_excel_file_tagged_frame (Some xls)) as [E | Hc]; [| done].
    rewrite E in Hr. done.
Qed.

Lemma extracted_rows_are_tagged_witness :
  Forall (fun r => is_Some (cells r !! "_SourceSheet"))
         (rows (fst (process_excel_file (Some wb_batch)))).
Proof.
  apply List.Forall_forall. intros r Hr.
  destruct (extracted_rows_are_tagged (Some wb_batch) r Hr)
    as (xls & t & a & _ & _ & _ & _ & _ & Hl & _).
  rewrite Hl. by exists (VStr a).
Defined.

(** X4. Extraction returns an empty frame exactly when no target name
    yields a row: for each target no sheet matches, or the matching sheet
    cannot be parsed, or it has no rows. *)
Theorem extraction_empty_iff (xls : Workbook) :
  pd.empty (fst (process_excel_file (Some xls))) = true <->
  Forall (fun t => tagged_cells xls t = []) sheets_to_process.
Proof.
  pose proof (process_excel_file_cells xls) as Hc.
  pose proof (process_excel_file_tagged_frame (Some xls)) as Ht.
  assert (flat_map (tagged_cells xls) sheets_to_process = [] <->
          Forall (fun t => tagged_cells xls t = []) sheets_to_process) as <-.
  { generalize sheets_to_process. intros ts.
    induction ts as [|t ts IH]; cbn [flat_map].
    - split; [constructor | done].
    - rewrite Forall_cons, <- IH. split.
      + by intros [? ?]%app_eq_nil.
      + by intros [-> ->]. }
  rewrite <- Hc. unfold pd.empty. rewrite orb_true_iff, !Nat.eqb_eq.
  destruct (fst (process_excel_file (Some xls))) as [cols rs]. cbn [rows columns] in *.
  split.
  - intros [H | H].
    + by destruct rs.
    + destruct cols; [| done]. destruct Ht as [[= ->] | []]. done.
  - intros H. left. by destruct rs.
Qed.

(** X5. On a frame that comes from extraction the first cleaning step
    removes nothing, since every row has its [_SourceSheet] value: the
    frame the run passes to cleaning is left as it was, and a blank row of
    a sheet is still there after step 1. *)
Theorem cleaning_leaves_extracted_frame (file_content : BytesIO) :
  stage1 (fst (process_excel_file file_content)) = fst (process_excel_file file_content) /\
  argument_after (clean_and_filter_data (fst (process_excel_file file_content)))
  = fst (process_excel_file file_content).
Proof.
  assert (stage1 (fst (process_excel_file file_content))
          = fst (process_excel_file file_content)) as H; [| by split].
  pose proof (extracted_frame_no_blank_row file_content) as Hn.
  unfold no_blank_row in Hn. apply filter_fixed_iff in Hn.
  unfold stage1, pd.dropna_all. rewrite Hn.
  by destruct (fst (process_excel_file file_content)).
Qed.


(** ** Trimming *)

Section Trimming.

Lemma lstrip_split l :
  exists ws, l = ws ++ PyStr.lstrip_list l /\ forallb PyStr.is_space ws = true.
Proof.
  induction l as [|c l (ws & Hl & Hws)]; [by exists [] |].
  cbn [PyStr.lstrip_list]. destruct (PyStr.is_space c) eqn:Hc.
  - exists (c :: ws). split; [by rewrite <- app_comm_cons, <- Hl |].
    cbn [forallb]. by rewrite Hc.
  - by exists [].
Qed.

Lemma lstrip_head l c rest :
  PyStr.lstrip_list l = c :: rest -> PyStr.is_space c = false.
Proof.
  induction l as [|d l IH]; [done |]. cbn [PyStr.lstrip_list].
  destruct (PyStr.is_space d) eqn:Hd; [done |]. by intros [= <- _].
Qed.

Lemma forallb_rev {A} (f : A -> bool) l : forallb f (rev l) = forallb f l.
Proof.
  induction l as [|a l IH]; [done |]. cbn [rev forallb].
  rewrite forallb_app, IH. cbn [forallb]. rewrite andb_true_r. apply andb_comm.
Qed.

Lemma list_of_string_app a b :
  list_ascii_of_string (a ++ b)%string
  = list_ascii_of_string a ++ list_ascii_of_string b.
Proof. induction a as [|c a IH]; simpl; [done | by rewrite IH]. Qed.

Lemma strip_list s :
  list_ascii_of_string (PyStr.strip s)
  = rev (PyStr.lstrip_list (rev (PyStr.lstrip_list (list_ascii_of_string s)))).
Proof.
  unfold PyStr.strip, PyStr.rstrip, PyStr.lstrip.
  by rewrite !list_ascii_of_string_of_list_ascii.
Qed.

Lemma strip_trims s : trims s (PyStr.strip s).
Proof.
  pose proof (strip_list s) as Hn.
  set (l := list_ascii_of_string s) in *.
  set (m := PyStr.lstrip_list l) in *.
  set (n := rev (PyStr.lstrip_list (rev m))) in *.
  destruct (lstrip_split l) as (ws & Hl & Hws). fold m in Hl.
  destruct (lstrip_split (rev m)) as (ws' & Hm & Hws').
  assert (m = n ++ rev ws') as Hmn.
  { rewrite <- (rev_involutive m), Hm at 1. by rewrite rev_app_distr. }
  split; [split |].
  - intros c rest E. rewrite E in Hn. cbn [list_ascii_of_string] in Hn.
    apply (lstrip_head l c (list_ascii_of_string rest ++ rev ws')).
    fold m. by rewrite Hmn, <- Hn.
  - intros front c E. rewrite E, list_of_string_app in Hn.
    cbn [list_ascii_of_string] in Hn.
    apply (lstrip_head (rev m) c (rev (list_ascii_of_string front))).
    rewrite <- (rev_involutive (PyStr.lstrip_list (rev m))). fold n.
    by rewrite <- Hn, rev_app_distr.
  - exists (string_of_list_ascii ws), (string_of_list_ascii (rev ws')).
    split; [| split].
    + assert (string_of_list_ascii n = PyStr.strip s) as <-
        by (by rewrite <- Hn, string_of_list_ascii_of_string).
      rewrite <- !string_of_list_app.
      rewrite <- (string_of_list_ascii_of_string s) at 1. fold l.
      by rewrite Hl, Hmn at 1.
    + unfold all_space. by rewrite list_ascii_of_string_of_list_ascii.
    + unfold all_space.
      by rewrite list_ascii_of_string_of_list_ascii, forallb_rev.
Qed.

Lemma string_app_assoc (a b c : string) :
  ((a ++ b) ++ c = a ++ (b ++ c))%string.
Proof.
  induction a as [|x a IH]; [done |].
  change (String x ((a ++ b) ++ c) = String x (a ++ b ++ c))%string.
  by rewrite IH.
Qed.

Lemma all_space_app a b : all_space a -> all_space b -> all_space (a ++ b)%string.
Proof.
  unfold all_space. rewrite list_of_string_app, forallb_app. by intros -> ->.
Qed.

Lemma trims_trans s s1 s2 : trims s s1 -> trims s1 s2 -> trims s s2.
Proof.
  intros [_ (a1 & b1 & -> & Ha1 & Hb1)] [Hno (a2 & b2 & -> & Ha2 & Hb2)].
  split; [done |]. exists (a1 ++ a2)%string, (b2 ++ b1)%string.
  split; [| split; by apply all_space_app].
  by rewrite !string_app_assoc.
Qed.

Lemma trimmed_from_step o : trimmed_from o (o ≫= pd.str_strip).
Proof.
  destruct o as [[s | x]|]; cbn; [| done..].
  exists (PyStr.strip s). split; [done | apply strip_trims].
Qed.

Lemma trimmed_from_trans o o1 o2 :
  trimmed_from o o1 -> trimmed_from o1 o2 -> trimmed_from o o2.
Proof.
  unfold trimmed_from. destruct o as [[s | x]|].
  - intros (s1 & -> & H1) (s2 & -> & H2). exists s2. split; [done |].
    by apply (trims_trans s s1 s2).
  - by intros ->.
  - by intros ->.
Qed.

(** The cells of a row after the trimming loop over the columns [cols]. *)
Lemma strip_fold_lookup cols : forall (m : gmap string value) col,
  let m' := fold_left (fun m c => partial_alter (fun o => o ≫= pd.str_strip) c m) cols m in
  if bool_decide (col ∈ cols)
  then trimmed_from (m !! col) (m' !! col)
  else m' !! col = m !! col.
Proof.
  induction cols as [|c cols IH]; intros m col; cbn [fold_left].
  - by rewrite bool_decide_eq_false_2 by apply not_elem_of_nil.
  - specialize (IH (partial_alter (fun o => o ≫= pd.str_strip) c m) col).
    cbn zeta in IH.
    destruct (decide (c = col)) as [-> | Hne].
    + rewrite bool_decide_eq_true_2 by apply list_elem_of_here.
      rewrite lookup_partial_alter_eq in IH.
      case_bool_decide.
      * eapply trimmed_from_trans; [apply trimmed_from_step | done].
      * rewrite IH. apply trimmed_from_step.
    + rewrite lookup_partial_alter_ne in IH by done.
      case_bool_decide as Hin.
      * by rewrite bool_decide_eq_true_2 by (by apply list_elem_of_further).
      * rewrite bool_decide_eq_false_2; [done |].
        intros [? | ?]%elem_of_cons; congruence.
Qed.

End Trimming.

(** ** Cleaning, continued *)

Section CleaningRows.

Lemma filter_filter_andb {A} (f g : A -> bool) l :
  List.filter f (List.filter g l) = List.filter (fun x => g x && f x) l.
Proof.
  induction l as [|a l IH]; [done |]. cbn [List.filter].
  destruct (g a); cbn [List.filter andb]; [| done].
  destruct (f a); by rewrite IH.
Qed.

Lemma stage3_rows df :
  rows (stage3 df)
  = List.filter (fun r => forallb (pd.notna r) (key_columns_exist df)) (rows df).
Proof.
  unfold stage3. destruct (key_columns_exist df) eqn:E; [| done].
  cbn [forallb]. symmetry. apply filter_fixed_iff. by apply forallb_forall.
Qed.

Lemma stage3_columns df : columns (stage3 df) = columns df.
Proof. unfold stage3. by destruct (key_columns_exist df). Qed.

Lemma stage3_rows_survive df :
  rows (stage3 (stage2 (stage1 df))) = List.filter (survives df) (rows df).
Proof.
  rewrite stage3_rows. cbn [stage2 stage1 pd.getitem_mask pd.dropna_all rows].
  rewrite !filter_filter_andb. apply List.filter_ext. intros r.
  unfold survives. by rewrite andb_assoc.
Qed.

Lemma returned_columns df : columns (returned (clean_and_filter_data df)) = columns df.
Proof.
  cbn [clean_and_filter_data returned]. by rewrite stage4_columns, stage3_columns.
Qed.

(** The rows of the frame cleaning ends with: the surviving rows, each
    with the columns the trimming loop went through trimmed. *)
Lemma returned_rows df :
  let d3 := stage3 (stage2 (stage1 df)) in
  rows (returned (clean_and_filter_data df))
  = map (fun r => mkRow (label r)
                    (fold_left (fun m c => partial_alter (fun o => o ≫= pd.str_strip) c m)
                               (stripped_columns (pd.object_columns d3) d3) (cells r)))
        (List.filter (survives df) (rows df)).
Proof.
  intros d3. cbn [clean_and_filter_data returned]. fold d3.
  by rewrite stage4_rows, <- stage3_rows_survive.
Qed.

Lemma returned_labels df :
  map label (rows (returned (clean_and_filter_data df)))
  = map label (List.filter (survives df) (rows df)).
Proof. rewrite returned_rows, map_map. done. Qed.

(** When cleaning returns, the loop has trimmed every object column. *)
Lemma returned_stripped_columns df :
  let d3 := stage3 (stage2 (stage1 df)) in
  raised (clean_and_filter_data df) = false ->
  stripped_columns (pd.object_columns d3) d3 = pd.object_columns df.
Proof.
  intros d3 Hr. cbn [clean_and_filter_data raised] in Hr. fold d3 in Hr.
  rewrite (strip_loop_all _ _ Hr). unfold d3, pd.object_columns.
  by rewrite stage3_columns.
Qed.

(** A cell of a row of the frame cleaning ends with is the cell of the
    surviving row it comes from, trimmed or left as it was. *)
Lemma returned_row_source df r' :
  In r' (rows (returned (clean_and_filter_data df))) ->
  exists r0, In r0 (rows df) /\ survives df r0 = true /\ label r' = label r0 /\
             forall col, trimmed_from (cells r0 !! col) (cells r' !! col) \/
                         cells r' !! col = cells r0 !! col.
Proof.
  rewrite returned_rows. intros (r0 & <- & Hin)%in_map_iff.
  apply filter_In in Hin as [Hin Hs]. exists r0. repeat split; [done.. |].
  intros col. cbn [cells].
  pose proof (strip_fold_lookup
                (stripped_columns (pd.object_columns (stage3 (stage2 (stage1 df))))
                                  (stage3 (stage2 (stage1 df))))
                (cells r0) col) as H.
  cbn zeta in H. destruct (bool_decide _); [by left | by right].
Qed.

Lemma returned_row_cells df r' :
  raised (clean_and_filter_data df) = false ->
  In r' (rows (returned (clean_and_filter_data df))) ->
  exists r0, In r0 (rows df) /\ survives df r0 = true /\ label r' = label r0 /\
             forall col, cell_after_cleaning df r0 r' col.
Proof.
  intros Hr. rewrite returned_rows, (returned_stripped_columns df Hr).
  intros (r0 & <- & Hin)%in_map_iff.
  apply filter_In in Hin as [Hin Hs]. exists r0. repeat split; [done.. |].
  intros col. unfold cell_after_cleaning. cbn [cells].
  apply (strip_fold_lookup (pd.object_columns df) (cells r0) col).
Qed.

Lemma contains_ci_trimmed p s s' :
  trims s s' -> PyStr.contains_ci p s' = true -> PyStr.contains_ci p s = true.
Proof.
  intros [_ (ws1 & ws2 & -> & _)]. rewrite !contains_ci_spec.
  intros (w & Hw & pre & post & ->). exists w. split; [done |].
  exists (ws1 ++ pre)%string, (post ++ ws2)%string.
  by rewrite !string_app_assoc.
Qed.

Lemma notna_spec r col : pd.notna r col = true <-> cells r !! col <> None.
Proof. unfold pd.notna. by destruct (cells r !! col). Qed.

Lemma has_column_spec df col :
  pd.has_column df col = true <-> In col (pd.column_names df).
Proof.
  unfold pd.has_column. rewrite existsb_exists. split.
  - by intros (c & Hc & ->%String.eqb_eq).
  - intros H. exists col. split; [done | apply String.eqb_refl].
Qed.

Lemma qc_mask_spec df r :
  qc_mask df r = false <->
  forall col marker,
    In col (pd.column_names df) -> In marker qc_patterns ->
    ~ occurs_ci marker (pd.astype_str (cells r !! col)).
Proof.
  unfold qc_mask, pd.str_contains_ci. split.
  - intros H col marker Hcol Hm Ho. apply occurs_ci_contains in Ho.
    assert (existsb (fun col => existsb (fun p => PyStr.contains_ci p
                       (pd.astype_str (cells r !! col))) qc_patterns)
                    (pd.column_names df) = true) as E; [| congruence].
    apply existsb_exists. exists col. split; [done |].
    apply existsb_exists. by exists marker.
  - intros H. apply not_true_is_false. intros E.
    apply existsb_exists in E as (col & Hcol & E).
    apply existsb_exists in E as (marker & Hm & E).
    apply (H col marker Hcol Hm). by apply occurs_ci_contains.
Qed.

(** The test of the three filters is the reference notion. *)
Lemma survives_spec df r : survives df r = true <-> kept_by_cleaning df r.
Proof.
  unfold survives, kept_by_cleaning.
  rewrite !andb_true_iff, negb_true_iff, qc_mask_spec.
  rewrite List.existsb_exists, List.forallb_forall.
  split.
  - intros [[(col & Hcol & Hn) H2] H3]. split; [| split; [done |]].
    + exists col. split; [done | by apply notna_spec].
    + intros key Hk Hc. apply notna_spec, H3.
      unfold key_columns_exist. apply filter_In. split; [done |].
      by apply has_column_spec.
  - intros [(col & Hcol & Hn) [H2 H3]]. split; [split; [| done] |].
    + exists col. split; [done | by apply notna_spec].
    + intros key [Hk Hc%has_column_spec]%filter_In. apply notna_spec. by apply H3.
Qed.

End CleaningRows.

(** X6. The frame cleaning ends with has exactly the rows of the input
    that have a value in some column, have none of the markers "CCV",
    "MB", "Blank", "Check" in the text of any column in any letter casing,
    and have a value in each of "Sample ID" and "Result" that is a column
    of the frame; they are in their order, with their index labels, and
    the columns and their dtypes are those of the input. *)
Theorem cleaning_keeps_exactly (df : DataFrame) :
  exists keep : Row -> bool,
    (forall r, keep r = true <-> kept_by_cleaning df r) /\
    map label (rows (returned (clean_and_filter_data df)))
    = map label (List.filter keep (rows df)) /\
    columns (returned (clean_and_filter_data df)) = columns df.
Proof.
  exists (survives df). split; [apply survives_spec |].
  split; [apply returned_labels | apply returned_columns].
Qed.

(** X7. When cleaning returns, each returned row comes from a kept row of
    the input with the same label, and cell by cell: in a column that is
    not of object dtype the value is the one of the input; in an object
    column a string comes back without the whitespace at its two ends --
    nothing else is removed from it -- and a value that is not a string
    comes back missing. *)
Theorem cleaning_trims_cells (df : DataFrame) (r' : Row) :
  raised (clean_and_filter_data df) = false ->
  In r' (rows (returned (clean_and_filter_data df))) ->
  exists r0, In r0 (rows df) /\ kept_by_cleaning df r0 /\ label r' = label r0 /\
             forall col, cell_after_cleaning df r0 r' col.
Proof.
  intros Hr Hin.
  destruct (returned_row_cells df r' Hr Hin) as (r0 & H0 & Hs & Hl & Hc).
  exists r0. repeat split; try done; by apply survives_spec.
Qed.

Lemma cleaning_trims_cells_witness :
  Forall (fun r' => exists r0,
            In r0 (rows df_lab_results) /\ label r' = label r0 /\
            cell_after_cleaning df_lab_results r0 r' "Sample ID")
         (rows (returned (clean_and_filter_data df_lab_results))).
Proof.
  apply List.Forall_forall. intros r' Hr'.
  destruct (cleaning_trims_cells df_lab_results r' eq_refl Hr')
    as (r0 & H0 & _ & Hl & Hc).
  exists r0. split; [exact H0 |]. split; [exact Hl | exact (Hc "Sample ID")].
Defined.

(** X8. No cell of the frame that cleaning returns has a QC marker in its
    text: in every column of the frame, the text of every returned row is
    free of "CCV", "MB", "Blank" and "Check" in any letter casing. *)
Theorem cleaned_output_has_no_qc_marker (df : DataFrame) (r' : Row) (col : string) :
  In r' (rows (returned (clean_and_filter_data df))) ->
  In col (pd.column_names df) ->
  pd.str_contains_ci qc_patterns (pd.astype_str (cells r' !! col)) = false.
Proof.
  intros Hr' Hcol.
  destruct (returned_row_source df r' Hr') as (r0 & H0 & Hs & _ & Hcells).
  assert (pd.str_contains_ci qc_patterns (pd.astype_str (cells r0 !! col)) = false)
    as Hq0.
  { unfold survives in Hs. apply andb_true_iff in Hs as [Hs _].
    apply andb_true_iff in Hs as [_ Hq]. apply negb_true_iff in Hq.
    unfold qc_mask in Hq.
    destruct (pd.str_contains_ci _ _) eqn:E; [| done].
    rewrite <- Hq. symmetry. apply existsb_exists. by exists col. }
  destruct (Hcells col) as [Ht | ->]; [| done].
  unfold trimmed_from in Ht.
  destruct (cells r0 !! col) as [[s | x]|]; [| by rewrite Ht..].
  destruct Ht as (s' & -> & Ht). cbn [pd.astype_str] in *.
  destruct (pd.str_contains_ci qc_patterns s') eqn:E; [| done].
  rewrite <- Hq0. symmetry. unfold pd.str_contains_ci in *.
  apply existsb_exists in E as (p & Hp & Hc).
  apply existsb_exists. exists p. split; [done |].
  by apply (contains_ci_trimmed p s s').
Qed.

Lemma cleaned_output_has_no_qc_marker_witness :
  Forall (fun r' => pd.str_contains_ci qc_patterns
                      (pd.astype_str (cells r' !! "Sample ID")) = false)
         (rows (returned (clean_and_filter_data df_lab_results))).
Proof.
  apply List.Forall_forall. intros r' Hr'.
  apply (cleaned_output_has_no_qc_marker df_lab_results r' "Sample ID" Hr').
  simpl. auto.
Defined.

(** ** The run, continued *)

Section RunRows.

Variable ctx : ClientContext.

Lemma visit_all_cells ledger files : forall st,
  died st = false ->
  map cells (rows (data_to_append (visit_all ctx ledger files st)))
  = map cells (rows (data_to_append st))
    ++ flat_map (appended_cells ctx ledger)
         (completed_rounds (round_raises ctx ledger) files).
Proof.
  induction files as [|url files IH]; intros st Hd.
  - cbn [flat_map completed_rounds]. by rewrite app_nil_r.
  - rewrite visit_all_step by done. cbn [completed_rounds].
    destruct (round_raises ctx ledger url) eqn:Hr.
    + rewrite after_round_data, Hr. cbn [flat_map]. by rewrite app_nil_r.
    + rewrite IH by (by rewrite after_round_died).
      rewrite after_round_data, Hr. cbn [flat_map].
      unfold appended_cells at 2.
      destruct (extracted ctx ledger url) as [[t fd]|]; [| done].
      by rewrite concat_cells, <- app_assoc.
Qed.

Lemma visit_all_range_index ledger files : forall st,
  died st = false ->
  range_index (data_to_append st) ->
  range_index (data_to_append (visit_all ctx ledger files st)).
Proof.
  induction files as [|url files IH]; intros st Hd Hst; [done |].
  rewrite visit_all_step by done.
  assert (range_index (data_to_append (after_round ctx ledger st url))) as Hafter.
  { rewrite after_round_data. destruct (round_raises ctx ledger url); [done |].
    destruct (extracted ctx ledger url) as [[t fd]|]; [apply concat_range_index | done]. }
  destruct (round_raises ctx ledger url) eqn:Hr; [done |].
  apply IH; [by rewrite after_round_died | done].
Qed.

End RunRows.

(** X9. The rows a run has gathered for the master file when its loop is
    over are the cleaned rows of the files whose round was completed,
    file after file in the order of the listing and row after row in the
    order cleaning returned them, numbered anew from zero; the completed
    rounds are those of all listed files unless cleaning ended the run
    with an exception. *)
Theorem run_rows_in_listing_order (ctx : ClientContext) (disk : Disk) :
  let ledger := ledger_on disk in
  let files := list_excel_files_recursive (root_folder ctx) in
  map cells (rows (data_to_append (run_loop ctx disk)))
  = flat_map (appended_cells ctx ledger)
             (completed_rounds (round_raises ctx ledger) files) /\
  range_index (data_to_append (run_loop ctx disk)) /\
  (died (run_loop ctx disk) = false ->
   completed_rounds (round_raises ctx ledger) files = files).
Proof.
  intros ledger files. rewrite run_loop_died, run_loop_eq.
  split; [| split].
  - by rewrite visit_all_cells.
  - by apply visit_all_range_index.
  - apply completed_rounds_all.
Qed.

(** X10. The master workbook after a connected run. It is the one found
    before the run when cleaning ended the run with an exception, when no
    row was gathered, or when the existing workbook could not be read.
    Otherwise, when [to_excel] does not raise, it holds the rows that
    [pd.read_excel] gave for the existing workbook, in their order,
    followed by the gathered rows, all numbered from zero -- the gathered
    frame itself when there was no workbook; and when [to_excel] raises,
    it is whatever the failed write left. *)
Theorem master_rows_are_appended (ctx : ClientContext) (io : LocalIO) (disk : Disk) :
  let data := data_to_append (run_loop ctx disk) in
  let after := master_file (fst (run_etl (Some ctx) io disk)) in
  if died (run_loop ctx disk) || pd.empty data then after = master_file disk
  else match master_file disk with
       | Some written =>
           match read_excel io written with
           | Some existing_data =>
               if to_excel_raises io then after = failed_write_leaves io (Some written)
               else exists consolidated_data,
                      after = Some consolidated_data /\
                      map cells (rows consolidated_data)
                      = map cells (rows existing_data) ++ map cells (rows data) /\
                      range_index consolidated_data /\
                      forall c, In c (pd.column_names existing_data) \/
                                In c (pd.column_names data) ->
                                In c (pd.column_names consolidated_data)
           | None => after = Some written
           end
       | None =>
           if to_excel_raises io then after = failed_write_leaves io None
           else after = Some data
       end.
Proof.
  intros data after. subst after. cbn [run_etl].
  destruct (died (run_loop ctx disk)); [done |]. cbn [orb].
  unfold commit. fold data.
  destruct (pd.empty data); [done |]. cbn [negb]. unfold write_master.
  destruct (master_file disk) as [written|] eqn:Hm.
  - destruct (read_excel io written) as [existing|]; cbn [fmap option_fmap option_map].
    + destruct (to_excel_raises io); [done |]. cbn [fst master_file].
      exists (pd.concat existing data). split; [done |].
      split; [apply concat_cells |]. split; [apply concat_range_index |].
      intros c. apply concat_keeps_columns.
    + cbn [fst]. done.
  - by destruct (to_excel_raises io).
Qed.

(** X11. A run never drops an entry of the ledger: a URL recorded before
    the run is recorded after it, with the same text, or, when the file
    was processed in the run, with the text of its current modification
    time. *)
Theorem ledger_entries_are_kept (connection : option ClientContext)
    (io : LocalIO) (disk : Disk) (url v : string) :
  ledger_on disk !! url = Some v ->
  ledger_on (fst (run_etl connection io disk)) !! url = Some v \/
  exists ctx t file_data,
    connection = Some ctx /\
    extracted ctx (ledger_on disk) url = Some (t, file_data) /\
    ledger_on (fst (run_etl connection io disk)) !! url = Some t.
Proof.
  intros Hv. destruct connection as [ctx|]; [| by left].
  destruct (run_etl_ledger_entry ctx io disk url) as [H | H];
    [| left; by rewrite H].
  rewrite H, run_loop_updated.
  destruct (decide _); [| by left].
  destruct (extracted ctx (ledger_on disk) url) as [[t fd]|] eqn:He; [| by left].
  right. by exists ctx, t, fd.
Qed.

Lemma ledger_entries_are_kept_witness :
  is_Some (ledger_on (fst (run_etl (Some (ctx_one_file (Some stamp_A) (Some (Some wb_batch))))
                                   io_ok disk_with_old_entry)) !! url_old).
Proof.
  destruct (ledger_entries_are_kept
              (Some (ctx_one_file (Some stamp_A) (Some (Some wb_batch))))
              io_ok disk_with_old_entry url_old "2023-05-01T00:00:00+00:00")
    as [H | (c & t & fd & _ & _ & H)].
  - vm_compute. reflexivity.
  - rewrite H. by eexists.
  - rewrite H. by eexists.
Defined.

Section RemoteCalls.

Lemma filter_flat_map {A B} (f : B -> bool) (g : A -> list B) l :
  List.filter f (flat_map g l) = flat_map (fun x => List.filter f (g x)) l.
Proof.
  induction l as [|a l IH]; [done |]. cbn [flat_map].
  by rewrite List.filter_app, IH.
Qed.

Lemma flat_map_nil_all {A B} (g : A -> list B) l :
  (forall x, g x = []) -> flat_map g l = [].
Proof. intros H. induction l as [|a l IH]; [done |]. cbn [flat_map]. by rewrite H, IH. Qed.

Lemma process_excel_file_local file_content :
  List.filter remote_call (snd (process_excel_file file_content)) = [].
Proof.
  destruct file_content as [xls|]; [| done].
  rewrite process_excel_file_events, filter_flat_map.
  apply flat_map_nil_all. intros t. unfold sheet_events.
  destruct (find_sheet t (sheet_names xls)) as [a|];
    [destruct (parse xls a default_header) |]; done.
Qed.

Lemma clean_local df :
  List.filter remote_call (printed (clean_and_filter_data df)) = [].
Proof.
  unfold clean_and_filter_data. cbn [printed].
  rewrite !List.filter_app.
  destruct (key_columns_exist _); by destruct (stage4_raises _).
Qed.

Lemma load_local log_file :
  List.filter remote_call (snd (load_processed_files_log log_file)) = [].
Proof.
  unfold load_processed_files_log.
  destruct log_file as [text|]; [destruct (json_load text) |]; done.
Qed.

Lemma commit_out io disk st :
  exists tail, snd (commit io disk st) = out st ++ tail /\
               List.filter remote_call tail = [].
Proof.
  unfold commit. destruct (pd.empty (data_to_append st)); cbn [negb];
    [| destruct (write_master _ _ _)]; cbn [snd]; eauto.
Qed.

Lemma run_etl_out ctx io disk :
  exists tail, snd (run_etl (Some ctx) io disk) = out (run_loop ctx disk) ++ tail /\
               List.filter remote_call tail = [].
Proof.
  cbn [run_etl]. destruct (died (run_loop ctx disk)); [| apply commit_out].
  cbn [snd]. eauto.
Qed.

Variable ctx : ClientContext.

Lemma processing_events_remote url :
  List.filter remote_call (processing_events ctx url) = [CallOpenBinary url].
Proof.
  unfold processing_events. cbn [List.filter remote_call]. f_equal.
  destruct (open_binary ctx url) as [c|]; [| done].
  rewrite List.filter_app, process_excel_file_local. cbn [app].
  destruct (pd.empty _); [done | apply clean_local].
Qed.

Lemma round_events_remote ledger url :
  List.filter remote_call (round_events ctx ledger url) = remote_calls_of ctx ledger url.
Proof.
  unfold round_events, remote_calls_of. cbn [List.filter remote_call]. f_equal.
  destruct (time_last_modified ctx url) as [t|]; [| done].
  destruct (classify ledger url (isoformat t)); cbn [List.filter remote_call];
    by rewrite ?processing_events_remote.
Qed.

End RemoteCalls.

(** X12. Once the files are listed, the calls a connected run makes to
    the remote store for the files are, in order and for each listed file
    in turn up to the one, if any, on which cleaning ends the run: one
    query of its modification time, followed by one download when that
    time is known and the file is New or Modified. No other query of a
    modification time and no other download takes place, whatever the
    outcome of the calls and of the final write. *)
Theorem remote_calls_of_a_run (ctx : ClientContext) (io : LocalIO) (disk : Disk) :
  let ledger := ledger_on disk in
  let files := list_excel_files_recursive (root_folder ctx) in
  List.filter remote_call (snd (run_etl (Some ctx) io disk))
  = flat_map (remote_calls_of ctx ledger)
             (started_rounds (round_raises ctx ledger) files) /\
  (died (run_loop ctx disk) = false ->
   started_rounds (round_raises ctx ledger) files = files).
Proof.
  intros ledger files. split.
  - destruct (run_etl_out ctx io disk) as (tail & -> & Htail).
    rewrite List.filter_app, Htail, app_nil_r, run_loop_out.
    rewrite !List.filter_app, load_local, filter_flat_map.
    cbn [List.filter remote_call app].
    apply flat_map_ext. intros url. apply round_events_remote.
  - rewrite run_loop_died. apply started_rounds_all.
Qed.

(** X13. A file from which no row can be extracted -- its download fails,
    its content cannot be opened, or no target sheet yields a row -- leaves
    no trace: the loop ends with the same rows to append and the same
    ledger as a loop that never met the file, and its ledger entry, in
    memory and on disk after the run, is the one found before the run. *)
Theorem file_without_rows_leaves_no_trace (ctx : ClientContext) (io : LocalIO)
    (disk : Disk) (url : string) :
  (forall file_content,
     open_binary ctx url = Some file_content ->
     pd.empty (fst (process_excel_file file_content)) = true) ->
  (forall ledger files st,
     data_to_append (visit_all ctx ledger files st)
     = data_to_append
         (visit_all ctx ledger (List.filter (fun u => negb (String.eqb u url)) files) st) /\
     updated_processed_files_log (visit_all ctx ledger files st)
     = updated_processed_files_log
         (visit_all ctx ledger (List.filter (fun u => negb (String.eqb u url)) files) st)) /\
  updated_processed_files_log (run_loop ctx disk) !! url = ledger_on disk !! url /\
  ledger_on (fst (run_etl (Some ctx) io disk)) !! url = ledger_on disk !! url.
Proof.
  intros Hrows.
  assert (forall ledger, extracted ctx ledger url = None) as Hnone.
  { intros ledger. unfold extracted.
    destruct (time_last_modified ctx url) as [t|]; [| done]. cbn [mbind option_bind].
    destruct (classify _ _ _); [| | done];
      (destruct (open_binary ctx url) as [c|] eqn:Hc; [| done]);
      cbn [mbind option_bind]; by rewrite (Hrows c). }
  assert (updated_processed_files_log (run_loop ctx disk) !! url
          = ledger_on disk !! url) as Hmem.
  { rewrite run_loop_updated, Hnone. by destruct (decide _). }
  split; [| split; [done |]].
  - intros ledger files st. by apply visit_all_without.
  - destruct (run_etl_ledger_entry ctx io disk url) as [-> | ->]; done.
Qed.

Lemma file_without_rows_leaves_no_trace_witness :
  ledger_on (fst (run_etl (Some (ctx_one_file (Some stamp_A) None)) io_ok disk_fresh))
    !! url_A
  = ledger_on disk_fresh !! url_A.
Proof.
  apply (file_without_rows_leaves_no_trace
           (ctx_one_file (Some stamp_A) None) io_ok disk_fresh url_A).
  intros file_content H. vm_compute in H. discriminate.
Defined.

(** X14. Nothing is done without a verified connection. When the site
    URL, the client id and the client secret are all set and not empty
    and the site accepts them, the run is the run against the context the
    site gave; in every other case the run leaves both local files as
    they are and only reports that it is not connected. *)
Theorem run_needs_credentials (env : Credentials)
    (site : string -> string -> string -> option ClientContext)
    (io : LocalIO) (disk : Disk) :
  (forall ctx, verified_connection env site ctx ->
               run_etl_from_env env site io disk = run_etl (Some ctx) io disk) /\
  ((forall ctx, ~ verified_connection env site ctx) ->
   run_etl_from_env env site io disk = (disk, [NotConnected])).
Proof.
  unfold run_etl_from_env, connect_to_sharepoint, verified_connection. split.
  - intros ctx (u & i & s & -> & Hu & -> & Hi & -> & Hs & Hsite).
    destruct u as [|cu u]; [done |].
    destruct i as [|ci i]; [done |].
    destruct s as [|cs s]; [done |].
    cbn [forallb env_truthy PyStr.truthy andb]. by rewrite Hsite.
  - intros Hnot.
    destruct (forallb _ _) eqn:Hall; [| done].
    cbn [forallb] in Hall. rewrite !andb_true_iff in Hall.
    destruct Hall as (Hu & Hi & Hs & _).
    destruct (SHAREPOINT_SITE_URL env) as [u|] eqn:Eu; [| done].
    destruct (SHAREPOINT_CLIENT_ID env) as [i|] eqn:Ei; [| done].
    destruct (SHAREPOINT_CLIENT_SECRET env) as [s|] eqn:Es; [| done].
    destruct (site u i s) as [ctx|] eqn:Hsite; [| done].
    destruct (Hnot ctx). exists u, i, s.
    cbn [env_truthy] in Hu, Hi, Hs.
    repeat split; try done; by intros ->.
Qed.

(** X15. Whenever a connected run gets to the end of its loop and has no
    rows to append, or has some and the master workbook is read and
    written without raising, it rewrites the ledger file -- a file that
    was missing, or held a JSON object of strings, whole or cut short:
    the next run loads from it, without a warning, exactly the ledger the
    run ended with. *)
Theorem ledger_file_is_rewritten (ctx : ClientContext) (io : LocalIO) (disk : Disk) :
  died (run_loop ctx disk) = false ->
  pd.empty (data_to_append (run_loop ctx disk)) = true \/
  (exists consolidated_data,
     write_master io (master_file disk) (data_to_append (run_loop ctx disk))
     = Written consolidated_data) ->
  load_processed_files_log (ledger_file (fst (run_etl (Some ctx) io disk)))
  = (updated_processed_files_log (run_loop ctx disk), []).
Proof.
  intros Hd Hok. cbn [run_etl]. rewrite Hd. unfold commit.
  destruct (pd.empty (data_to_append (run_loop ctx disk))) eqn:He; cbn [negb].
  - cbn [fst ledger_file]. apply load_after_save.
  - destruct Hok as [? | [m Hm]]; [done |]. rewrite Hm.
    cbn [fst ledger_file]. apply load_after_save.
Qed.

Lemma ledger_file_is_rewritten_witness :
  load_processed_files_log
    (ledger_file (fst (run_etl (Some (ctx_one_file None None)) io_ok disk_corrupt_ledger)))
  = (updated_processed_files_log
       (run_loop (ctx_one_file None None) disk_corrupt_ledger), []).
Proof.
  apply (ledger_file_is_rewritten (ctx_one_file None None) io_ok disk_corrupt_ledger).
  - reflexivity.
  - left. vm_compute. reflexivity.
Defined.
